(** * Content moderation pipeline: heuristic validator, classifier adapter,
      decision normaliser

    A shallow embedding of [src/services/contentModerator.ts] and
    [src/services/geminiService.ts] together with the properties of the
    moderation pipeline.

    Conventions of the embedding.
    - A JavaScript string is the list of its UTF-16 code units; [length] is
      the [.length] of the string.
    - A JavaScript number is [NaN], an infinity, or the rational a finite
      double denotes; a decimal literal of the source stands for the double
      nearest to it.  The pipeline only compares numbers, takes
      [Math.max]/[Math.min] of them (all exact on doubles) and divides one
      length or count by another before comparing the quotient with 0.3 or
      0.2.  No double lies strictly between a literal and the double nearest
      to it, and for lengths below 2^32 the exact quotient differs from 3/10
      (from 1/5) either not at all or by far more than the rounding of the
      division, so the rational reading decides every branch as the doubles
      do.  Signed zeros are identified.
    - Values whose TypeScript annotation is erased at run time (the fields of
      the object returned by [JSON.parse]) are kept as untyped values
      [jsval].
    - An [async] function is a function to [exn]: [Val] is a fulfilled
      promise, [Throw] a rejected one.  The one external effect, the call of
      the generative model, is threaded as a log of the prompts sent. *)

From Stdlib Require Import QArith Qminmax Lqa NArith List String Ascii Bool Lia.
From stdpp Require Import gmap strings list.

Set Default Proof Using "Type".
#[local] Set Warnings "-register-all".

(** ** The JavaScript fragment the services use *)

Module JS.

(** *** Strings *)

Definition jsstring : Type := list N.

(** An ASCII literal of the source as a string of code units. *)
Definition lit (s : string) : jsstring :=
  List.map N_of_ascii (list_ascii_of_string s).

Definition jsstring_eqb (a b : jsstring) : bool := bool_decide (a = b).

(** [.length], of a string or of an array. *)
Definition len {A : Type} (l : list A) : N := N.of_nat (length l).

(** [LineTerminator] of ECMAScript: LF, CR, LS, PS.  The [.] of a regular
    expression without the [s] flag matches every code unit but these. *)
Definition isLineTerminator (c : N) : bool :=
  N.eqb c 10 || N.eqb c 13 || N.eqb c 8232 || N.eqb c 8233.

(** [WhiteSpace] and [LineTerminator] together: what [String.prototype.trim]
    strips and what [\s] matches. *)
Definition isWhiteSpace (c : N) : bool :=
  N.eqb c 9 || N.eqb c 11 || N.eqb c 12 || N.eqb c 32 || N.eqb c 160
  || N.eqb c 5760 || (N.leb 8192 c && N.leb c 8202)
  || N.eqb c 8239 || N.eqb c 8287 || N.eqb c 12288 || N.eqb c 65279
  || isLineTerminator c.

Fixpoint trimStart (s : jsstring) : jsstring :=
  match s with
  | c :: s' => if isWhiteSpace c then trimStart s' else s
  | [] => []
  end.

Definition trimEnd (s : jsstring) : jsstring := rev (trimStart (rev s)).

(** [s.trim()] *)
Definition trim (s : jsstring) : jsstring := trimEnd (trimStart s).

(** [s.split(/\s+/)]: the pieces between maximal runs of white space.  A
    string that starts (ends) with white space yields a leading (trailing)
    empty piece, and the empty string yields one empty piece.  [in_sep] says
    that the previous code unit belonged to a separator; [cur] is the piece
    being read, reversed. *)
Fixpoint split_ws_from (in_sep : bool) (cur : jsstring) (s : jsstring)
  : list jsstring :=
  match s with
  | [] => [rev cur]
  | c :: s' =>
      if isWhiteSpace c
      then (if in_sep then split_ws_from true [] s'
            else rev cur :: split_ws_from true [] s')
      else split_ws_from false (c :: cur) s'
  end.

Definition split_ws (s : jsstring) : list jsstring := split_ws_from false [] s.

(** Does [s] start with [n] copies of [c]? *)
Fixpoint starts_with_copies (c : N) (n : nat) (s : jsstring) : bool :=
  match n with
  | O => true
  | S n' =>
      match s with
      | x :: s' => N.eqb x c && starts_with_copies c n' s'
      | [] => false
      end
  end.

(** [/(.)\1{9,}/.test(s)]: at some position a code unit that [.] matches is
    followed by at least nine copies of itself. *)
Fixpoint test_repeated_char (s : jsstring) : bool :=
  match s with
  | [] => false
  | c :: s' =>
      (negb (isLineTerminator c) && starts_with_copies c 9 s')
      || test_repeated_char s'
  end.

(** Is [p] a prefix of [s]? *)
Fixpoint starts_with (p s : jsstring) : bool :=
  match p, s with
  | [], _ => true
  | x :: p', y :: s' => N.eqb x y && starts_with p' s'
  | _ :: _, [] => false
  end.

(** [s.replace(/```json|```/g, '')]: scanning from the left, every fence is
    removed; at each position the longer alternative is tried first.  [skip]
    counts the code units of the current match still to be dropped. *)
Fixpoint strip_fences_from (skip : nat) (s : jsstring) : jsstring :=
  match s with
  | [] => []
  | c :: s' =>
      match skip with
      | S k => strip_fences_from k s'
      | O =>
          if starts_with (lit "```json") s then strip_fences_from 6 s'
          else if starts_with (lit "```") s then strip_fences_from 2 s'
          else c :: strip_fences_from 0 s'
      end
  end.

Definition strip_fences (s : jsstring) : jsstring := strip_fences_from 0 s.

(** *** Numbers *)

Inductive jsnum : Type :=
  | NaN
  | NegInf
  | Fin (q : Q)
  | PosInf.

Definition Qlt_bool (a b : Q) : bool := negb (Qle_bool b a).

(** [a < b] *)
Definition js_lt (a b : jsnum) : bool :=
  match a, b with
  | NaN, _ | _, NaN => false
  | NegInf, NegInf => false
  | NegInf, _ => true
  | _, NegInf => false
  | PosInf, _ => false
  | Fin _, PosInf => true
  | Fin x, Fin y => Qlt_bool x y
  end.

(** [a > b] and [a >= b] *)
Definition js_gt (a b : jsnum) : bool := js_lt b a.

Definition js_ge (a b : jsnum) : bool :=
  match a, b with
  | NaN, _ | _, NaN => false
  | _, _ => negb (js_lt a b)
  end.

(** [a === b] on numbers *)
Definition js_num_eq (a b : jsnum) : bool :=
  match a, b with
  | NegInf, NegInf | PosInf, PosInf => true
  | Fin x, Fin y => Qeq_bool x y
  | _, _ => false
  end.

(** [Math.max(a, b)] and [Math.min(a, b)]: [NaN] if an argument is [NaN],
    else one of the arguments. *)
Definition Math_max (a b : jsnum) : jsnum :=
  match a, b with
  | NaN, _ | _, NaN => NaN
  | _, _ => if js_lt a b then b else a
  end.

Definition Math_min (a b : jsnum) : jsnum :=
  match a, b with
  | NaN, _ | _, NaN => NaN
  | _, _ => if js_lt b a then b else a
  end.

(** [Math.max(...l)]: [-Infinity] when there is no argument. *)
Definition Math_max_list (l : list jsnum) : jsnum := fold_right Math_max NegInf l.

(** [a / b] *)
Definition js_div (a b : jsnum) : jsnum :=
  match a, b with
  | NaN, _ | _, NaN => NaN
  | Fin x, Fin y =>
      if Qeq_bool y 0
      then (if Qeq_bool x 0 then NaN else if Qlt_bool 0 x then PosInf else NegInf)
      else Fin (x / y)
  | Fin _, _ => Fin 0
  | PosInf, Fin y => if Qlt_bool y 0 then NegInf else PosInf
  | NegInf, Fin y => if Qlt_bool y 0 then PosInf else NegInf
  | _, _ => NaN
  end.

(** A length or a count as a number. *)
Definition of_N (n : N) : jsnum := Fin (inject_Z (Z.of_N n)).

(** The closed interval [0, 1]. *)
Definition in_unit_interval (n : jsnum) : Prop :=
  match n with
  | Fin q => (0 <= q)%Q /\ (q <= 1)%Q
  | _ => False
  end.

(** *** Untyped values *)

Inductive jsval : Type :=
  | VUndef
  | VNull
  | VBool (b : bool)
  | VNum (n : jsnum)
  | VStr (s : jsstring)
  | VArr (items : list jsval)
  | VObj (fields : list (jsstring * jsval)).

(** [ToBoolean] *)
Definition truthy (v : jsval) : bool :=
  match v with
  | VUndef | VNull => false
  | VBool b => b
  | VNum NaN => false
  | VNum (Fin q) => negb (Qeq_bool q 0)
  | VNum _ => true
  | VStr s => negb (jsstring_eqb s [])
  | VArr _ | VObj _ => true
  end.

(** [a || b] *)
Definition js_or (a b : jsval) : jsval := if truthy a then a else b.

(** [v === s] for a string [s] *)
Definition is_string (s : jsstring) (v : jsval) : bool :=
  match v with
  | VStr t => jsstring_eqb t s
  | _ => false
  end.

(** [v === n] for a number [n] *)
Definition is_number (n : jsnum) (v : jsval) : bool :=
  match v with
  | VNum m => js_num_eq m n
  | _ => false
  end.

(** [l.includes(s)] for a string [s]: some element is that very string. *)
Definition includes (l : list jsval) (s : jsstring) : bool :=
  existsb (is_string s) l.

(** The own property [k] of a plain object. *)
Fixpoint own_property (fields : list (jsstring * jsval)) (k : jsstring)
  : option jsval :=
  match fields with
  | [] => None
  | (k', v) :: rest => if jsstring_eqb k' k then Some v else own_property rest k
  end.

(** *** Completions *)

(** What the handler of [GeminiService.moderateContent] inspects in a thrown
    value.  [ThrownValue] is a thrown primitive ([null], a string, ...);
    [ThrownObject status] is a thrown object and [status] its [status]
    property, [None] when the object has none.  The generative-AI client
    rejects with error objects whose [status] is the HTTP status code; here
    it may be any primitive value. *)
Inductive jsprim : Type :=
  | PUndef
  | PNull
  | PBool (b : bool)
  | PNum (n : jsnum)
  | PStr (s : jsstring).

Definition prim_val (p : jsprim) : jsval :=
  match p with
  | PUndef => VUndef
  | PNull => VNull
  | PBool b => VBool b
  | PNum n => VNum n
  | PStr s => VStr s
  end.

Inductive thrown : Type :=
  | ThrownValue (v : jsprim)
  | ThrownObject (status : option jsprim).

(** [SyntaxError] of [JSON.parse] and [TypeError] of a property access or a
    failed coercion: error objects without [status]. *)
Definition SyntaxError : thrown := ThrownObject None.
Definition TypeError : thrown := ThrownObject None.

Inductive exn (A : Type) : Type :=
  | Val (a : A)
  | Throw (e : thrown).
Arguments Val {A} a.
Arguments Throw {A} e.

Definition bind {A B : Type} (m : exn A) (k : A -> exn B) : exn B :=
  match m with
  | Val a => k a
  | Throw e => Throw e
  end.

#[export] Instance exn_ret : MRet exn := @Val.
#[export] Instance exn_bind : MBind exn := fun A B k m => bind m k.

(** [try { body } catch (e) { handler(e) }] *)
Definition try_catch {A : Type} (body : exn A) (handler : thrown -> exn A)
  : exn A :=
  match body with
  | Val a => Val a
  | Throw e => handler e
  end.

(** [o.k] where [o] came out of [JSON.parse]: a [TypeError] on [null], the
    own property of an object, [undefined] otherwise.  None of the names
    read by the services is defined on a prototype. *)
Definition get_property (o : jsval) (k : jsstring) : exn jsval :=
  match o with
  | VUndef | VNull => Throw TypeError
  | VObj fields =>
      match own_property fields k with
      | Some v => Val v
      | None => Val VUndef
      end
  | _ => Val VUndef
  end.

(** *** Built-ins that are taken as given *)

(** [toLowerCase] is [String.prototype.toLowerCase]; [JSON_parse] is
    [JSON.parse], [None] when it throws its [SyntaxError];
    [StringToNumber] and [ArrayToNumber] are [ToNumber] on strings and on
    arrays (the latter converts the array to a string first and can throw). *)
Class Host : Type := {
  toLowerCase : jsstring -> jsstring;
  JSON_parse : jsstring -> option jsval;
  StringToNumber : jsstring -> jsnum;
  ArrayToNumber : list jsval -> exn jsnum
}.

(** [ToNumber].  A plain object converts through [valueOf] and [toString];
    both are inherited and yield ["[object Object]"], hence [NaN], unless
    the object has an own property [toString], which (not being callable)
    leaves no usable conversion: a [TypeError]. *)
Definition ToNumber `{Host} (v : jsval) : exn jsnum :=
  match v with
  | VUndef => Val NaN
  | VNull => Val (Fin 0)
  | VBool b => Val (Fin (if b then 1 else 0))
  | VNum n => Val n
  | VStr s => Val (StringToNumber s)
  | VArr items => ArrayToNumber items
  | VObj fields =>
      match own_property fields (lit "toString") with
      | Some _ => Throw TypeError
      | None => Val NaN
      end
  end.

(** [ToNumber] on a primitive never throws. *)
Definition ToNumber_prim `{Host} (p : jsprim) : jsnum :=
  match p with
  | PUndef => NaN
  | PNull => Fin 0
  | PBool b => Fin (if b then 1 else 0)
  | PNum n => n
  | PStr s => StringToNumber s
  end.

End JS.

Import JS.

(** ** The types of [src/types/index.ts] *)

Module ContentModerationRequest.
Record t : Type := mk {
  content : jsstring;
  userId : option jsstring;
  platform : option jsstring
}.
End ContentModerationRequest.

(** The annotations of [GeminiResponse] are erased at run time: what
    [parseGeminiResponse] stores in [isProblematic], [reasoning] and
    [severity] is whatever the parsed object holds there. *)
Module GeminiResponse.
Record t : Type := mk {
  isProblematic : jsval;
  confidence : jsnum;
  categories : list jsval;
  reasoning : jsval;
  severity : jsval
}.
End GeminiResponse.

Module ContentModerationResponse.
Record t : Type := mk {
  isProblematic : jsval;
  confidence : jsnum;
  categories : list jsval;
  reasoning : jsval;
  severity : jsval;
  recommendations : list jsstring
}.

Definition set_isProblematic (b : jsval) (r : t) : t :=
  mk b (confidence r) (categories r) (reasoning r) (severity r) (recommendations r).
Definition set_confidence (c : jsnum) (r : t) : t :=
  mk (isProblematic r) c (categories r) (reasoning r) (severity r) (recommendations r).
Definition set_severity (v : jsval) (r : t) : t :=
  mk (isProblematic r) (confidence r) (categories r) (reasoning r) v (recommendations r).
(** [r.recommendations.push(...l)] *)
Definition push_recommendations (l : list jsstring) (r : t) : t :=
  mk (isProblematic r) (confidence r) (categories r) (reasoning r) (severity r)
     (recommendations r ++ l).
End ContentModerationResponse.

Module ModerationCategory.
Record t : Type := mk {
  name : jsstring;
  description : jsstring;
  severity : jsstring
}.
End ModerationCategory.

(** The four severities of the response type. *)
Definition severity_levels : list jsstring :=
  [lit "low"; lit "medium"; lit "high"; lit "critical"].

Definition is_severity_level (v : jsval) : bool :=
  existsb (fun s => is_string s v) severity_levels.

(** ** [src/services/geminiService.ts] *)

Module GeminiService.
Import GeminiResponse.

Section WithHost.
Context `{Host}.

Definition quoted (s : jsstring) : jsstring := [34%N] ++ s ++ [34%N].

(** [lines.join("\n")] *)
Fixpoint unlines (lines : list jsstring) : jsstring :=
  match lines with
  | [] => []
  | [l] => l
  | l :: rest => l ++ [10%N] ++ unlines rest
  end.

Definition buildModerationPrompt (content : jsstring) : jsstring :=
  trim (unlines
    [ lit "";
      lit "You are a content moderation AI. Analyze the following content and determine if it contains problematic material.";
      lit "";
      lit "Content to analyze: " ++ quoted content;
      lit "";
      lit "Please respond with a JSON object containing:";
      lit "{";
      lit "  " ++ quoted (lit "isProblematic") ++ lit ": boolean,";
      lit "  " ++ quoted (lit "confidence") ++ lit ": number (0-1),";
      lit "  " ++ quoted (lit "categories") ++ lit ": string[],";
      lit "  " ++ quoted (lit "reasoning") ++ lit ": string,";
      lit "  " ++ quoted (lit "severity") ++ lit ": " ++ quoted (lit "low")
        ++ lit " | " ++ quoted (lit "medium") ++ lit " | " ++ quoted (lit "high")
        ++ lit " | " ++ quoted (lit "critical");
      lit "}";
      lit "";
      lit "Categories to check for:";
      lit "- hate_speech: Content that attacks or demeans groups based on race, religion, gender, etc.";
      lit "- harassment: Content intended to harass, bully, or intimidate";
      lit "- violence: Content promoting or glorifying violence";
      lit "- explicit_content: Sexual or adult content";
      lit "- misinformation: False or misleading information";
      lit "- spam: Repetitive or promotional content";
      lit "- self_harm: Content promoting self-harm or suicide";
      lit "- illegal_activities: Content promoting illegal activities";
      lit "- terrorism: Content promoting terrorism or extremism";
      lit "";
      lit "Severity levels:";
      lit "- low: Minor policy violations";
      lit "- medium: Moderate violations requiring attention";
      lit "- high: Serious violations requiring immediate action";
      lit "- critical: Extremely dangerous content requiring immediate removal";
      lit "";
      lit "Only respond with the JSON object, no additional text.";
      lit "    " ]).

(** The response of the [catch] of [parseGeminiResponse]. *)
Definition parseFailure : t :=
  mk (VBool false) (Fin 0) [] (VStr (lit "Failed to parse AI response"))
     (VStr (lit "low")).

(** The [try] block of [parseGeminiResponse] once [JSON.parse] has returned
    [parsed]: the five fields are read and defaulted in the order of the
    object literal. *)
Definition responseOfParsed (parsed : jsval) : exn t :=
  isProblematic' ← get_property parsed (lit "isProblematic");
  confidence' ← get_property parsed (lit "confidence");
  n ← ToNumber (js_or confidence' (VNum (Fin 0)));
  categories' ← get_property parsed (lit "categories");
  reasoning' ← get_property parsed (lit "reasoning");
  severity' ← get_property parsed (lit "severity");
  Val (mk (js_or isProblematic' (VBool false))
          (Math_max (Fin 0) (Math_min (Fin 1) n))
          (match categories' with VArr items => items | _ => [] end)
          (js_or reasoning' (VStr (lit "No reasoning provided")))
          (js_or severity' (VStr (lit "low")))).

Definition parseGeminiResponse (text : jsstring) : t :=
  let body :=
    let cleanedText := trim (strip_fences text) in
    parsed ← match JSON_parse cleanedText with
             | Some v => Val v
             | None => Throw SyntaxError
             end;
    responseOfParsed parsed in
  match body with
  | Val r => r
  | Throw _ => parseFailure
  end.

(** The fallback responses of the [catch] of [moderateContent]. *)
Definition apiFallback (category reasoning : string) : t :=
  mk (VBool false) (Fin 0.5) [VStr (lit category)] (VStr (lit reasoning))
     (VStr (lit "low")).

Definition rateLimitResponse : t :=
  apiFallback "api_rate_limit"
              "API rate limit exceeded. Content could not be analyzed.".
Definition authErrorResponse : t :=
  apiFallback "api_auth_error"
              "API authentication failed. Content could not be analyzed.".
Definition serverErrorResponse : t :=
  apiFallback "api_server_error"
              "API server error. Content could not be analyzed.".
Definition genericErrorResponse : t :=
  apiFallback "api_error" "API error occurred. Content could not be analyzed.".

(** The [catch] block of [moderateContent]. *)
Definition handleError (error : thrown) : exn t :=
  match error with
  | ThrownObject (Some status) =>
      if is_number (Fin 429) (prim_val status) then Val rateLimitResponse
      else if is_number (Fin 403) (prim_val status)
              || is_number (Fin 401) (prim_val status)
      then Val authErrorResponse
      else if js_ge (ToNumber_prim status) (Fin 500) then Val serverErrorResponse
      else Val genericErrorResponse
  | _ => Val genericErrorResponse
  end.

(** The generative model as the service sees it: the three awaited steps
    [generateContent(prompt)], [result.response] and [response.text()]
    together either yield the text or throw. *)
Definition Model : Type := jsstring -> exn jsstring.

(** [moderateContent(request)].  [log] lists the prompts sent to the model
    so far. *)
Definition moderateContent (model : Model) (request : ContentModerationRequest.t)
    (log : list jsstring) : exn t * list jsstring :=
  let prompt := buildModerationPrompt (ContentModerationRequest.content request) in
  (try_catch (text ← model prompt; Val (parseGeminiResponse text)) handleError,
   log ++ [prompt]).

(** The client library as the constructor uses it:
    [new GoogleGenerativeAI(apiKey).getGenerativeModel({ model: name })].
    Neither of the two calls contacts the backend or looks at the key; what
    a key is worth shows only when the model obtained with it is called. *)
Definition Sdk : Type := jsstring -> jsstring -> Model.

Definition modelName : jsstring := lit "gemini-1.5-flash".

(** [new GeminiService(apiKey).moderateContent(request)] *)
Definition withKey (sdk : Sdk) (apiKey : jsstring)
    (request : ContentModerationRequest.t) (log : list jsstring)
  : exn t * list jsstring :=
  moderateContent (sdk apiKey modelName) request log.

End WithHost.
End GeminiService.

(** ** [src/services/contentModerator.ts] *)

Module ContentModerator.
Import ContentModerationResponse.

Section WithHost.
Context `{Host}.

(** *** [performBasicValidation] *)

Definition emptyContent : t :=
  mk (VBool true) (Fin 1.0) [VStr (lit "empty_content")]
     (VStr (lit "Content is empty")) (VStr (lit "low"))
     [lit "Please provide meaningful content"].

Definition excessiveLength : t :=
  mk (VBool true) (Fin 0.8) [VStr (lit "excessive_length")]
     (VStr (lit "Content exceeds maximum length limit")) (VStr (lit "medium"))
     [lit "Please shorten your content to under 10,000 characters"].

Definition repeatedCharacters : t :=
  mk (VBool true) (Fin 0.9) [VStr (lit "spam")]
     (VStr (lit "Content matches spam patterns - repeated characters"))
     (VStr (lit "high"))
     [lit "Please avoid spam-like content patterns"].

Definition excessiveRepetition : t :=
  mk (VBool true) (Fin 0.8) [VStr (lit "spam")]
     (VStr (lit "Content shows excessive repetition patterns"))
     (VStr (lit "medium"))
     [lit "Please vary your content and avoid excessive repetition"].

Definition excessiveSpecialChars : t :=
  mk (VBool true) (Fin 0.7) [VStr (lit "spam")]
     (VStr (lit "Content contains excessive special characters"))
     (VStr (lit "medium"))
     [lit "Please reduce the use of special characters"].

Definition validationPassed : t :=
  mk (VBool false) (Fin 0.1) [] (VStr (lit "Basic validation passed"))
     (VStr (lit "low")) [].

(** [content.toLowerCase().split(/\s+/)] *)
Definition words (content : jsstring) : list jsstring :=
  split_ws (toLowerCase content).

(** A value stored in [wordFrequency]: a count, or the string that results
    when 1 is added to a function inherited from [Object.prototype]. *)
Inductive frequency : Type :=
  | Count (n : N)
  | Text.

(** The function-valued properties every object literal inherits. *)
Definition inheritedMethods : list jsstring :=
  [ lit "constructor"; lit "__defineGetter__"; lit "__defineSetter__";
    lit "hasOwnProperty"; lit "__lookupGetter__"; lit "__lookupSetter__";
    lit "isPrototypeOf"; lit "propertyIsEnumerable"; lit "toString";
    lit "valueOf"; lit "toLocaleString" ].

(** The body of the [forEach]:
    [wordFrequency[word] = (wordFrequency[word] || 0) + 1] for a word longer
    than 2.  A stored value is truthy and is used; a missing key reads
    through the prototype: [__proto__] reads an object and the assignment of
    the resulting string to [__proto__] is ignored, an inherited method
    yields a string, anything else [undefined] and the count 1. *)
Definition countWord (wordFrequency : gmap jsstring frequency) (word : jsstring)
  : gmap jsstring frequency :=
  if N.ltb 2 (len word) then
    match wordFrequency !! word with
    | Some (Count n) => <[word := Count (n + 1)]> wordFrequency
    | Some Text => wordFrequency
    | None =>
        if jsstring_eqb word (lit "__proto__") then wordFrequency
        else if existsb (jsstring_eqb word) inheritedMethods
        then <[word := Text]> wordFrequency
        else <[word := Count 1]> wordFrequency
    end
  else wordFrequency.

Definition wordFrequencyOf (ws : list jsstring) : gmap jsstring frequency :=
  fold_left countWord ws ∅.

(** [ToNumber] of a stored value, as [Math.max] applies it. *)
Definition frequencyNumber (f : frequency) : jsnum :=
  match f with
  | Count n => of_N n
  | Text => NaN
  end.

(** [Math.max(...Object.values(wordFrequency))] *)
Definition maxFrequencyOf (wordFrequency : gmap jsstring frequency) : jsnum :=
  Math_max_list (List.map (fun kv => frequencyNumber (snd kv))
                          (map_to_list wordFrequency)).

(** The condition of the repetition check,
    [words.length > 10] and then [repetitionRatio > 0.3 && words.length > 10].
    ([totalWords] is computed by the source and not used.) *)
Definition repetitionFlagged (content : jsstring) : bool :=
  let ws := words content in
  if N.ltb 10 (len ws) then
    let wordFrequency := wordFrequencyOf ws in
    let maxFrequency := maxFrequencyOf wordFrequency in
    let repetitionRatio := js_div maxFrequency (of_N (len ws)) in
    js_gt repetitionRatio (Fin 0.3) && N.ltb 10 (len ws)
  else false.

(** The character class of the special-character check. *)
Definition isSpecialChar (c : N) : bool :=
  existsb (N.eqb c)
    ([34%N; 39%N] ++ lit "!@#$%^&*()_+=[]{}|;:,./<>?~`").

(** The condition of the special-character check. *)
Definition specialCharsFlagged (content : jsstring) : bool :=
  let specialCharCount := len (List.filter isSpecialChar content) in
  let totalCharCount := len content in
  let specialCharRatio := js_div (of_N specialCharCount) (of_N totalCharCount) in
  js_gt specialCharRatio (Fin 0.2) && N.ltb 50 totalCharCount.

Definition performBasicValidation (content : jsstring) : t :=
  let trimmedContent := trim content in
  if N.eqb (len trimmedContent) 0 then emptyContent
  else if N.ltb 10000 (len trimmedContent) then excessiveLength
  else if test_repeated_char content then repeatedCharacters
  else if repetitionFlagged content then excessiveRepetition
  else if specialCharsFlagged content then excessiveSpecialChars
  else validationPassed.

(** *** [applyBusinessRules] *)

Definition apiErrorCategories : list jsstring :=
  [lit "api_rate_limit"; lit "api_auth_error"; lit "api_server_error";
   lit "api_error"].

(** [categories.some(cat => apiErrorCategories.includes(cat))] *)
Definition hasApiError (categories : list jsval) : bool :=
  existsb (fun cat => existsb (fun a => is_string a cat) apiErrorCategories)
          categories.

Definition unavailable : jsstring :=
  lit "Content moderation temporarily unavailable. Please try again later.".
Definition removalRequired : jsstring := lit "Immediate content removal required".
Definition humanReview : jsstring :=
  lit "Content should be reviewed by human moderators".
Definition ageRestrict : jsstring := lit "Consider age-restricting this content".

Definition getRecommendationsForCategories (categories : list jsval)
  : list jsstring :=
  (if includes categories (lit "hate_speech")
   then [lit "Consider using more inclusive language"] else [])
  ++ (if includes categories (lit "harassment")
      then [lit "Please be respectful in your communication"] else [])
  ++ (if includes categories (lit "violence")
      then [lit "Avoid content that promotes violence"] else [])
  ++ (if includes categories (lit "misinformation")
      then [lit "Please verify facts before sharing"] else [])
  ++ (if includes categories (lit "spam")
      then [lit "Avoid repetitive or promotional content"] else []).

(** The initial [finalResponse]: the five fields of the classification and
    no recommendation. *)
Definition copyResponse (g : GeminiResponse.t) : t :=
  mk (GeminiResponse.isProblematic g) (GeminiResponse.confidence g)
     (GeminiResponse.categories g) (GeminiResponse.reasoning g)
     (GeminiResponse.severity g) [].

(** The successive [if] blocks of [applyBusinessRules], each as the update
    it performs on [finalResponse]. *)
Definition apiErrorOverride (r : t) : t :=
  push_recommendations [unavailable] (set_isProblematic (VBool false) r).

Definition criticalRule (r : t) : t :=
  if is_string (lit "critical") (severity r)
  then push_recommendations [removalRequired]
         (set_confidence (Math_max (confidence r) (Fin 0.9))
            (set_isProblematic (VBool true) r))
  else r.

Definition highRule (r : t) : t :=
  if is_string (lit "high") (severity r)
  then push_recommendations [humanReview]
         (set_confidence (Math_max (confidence r) (Fin 0.8))
            (set_isProblematic (VBool true) r))
  else r.

Definition platformRule (request : ContentModerationRequest.t) (r : t) : t :=
  if bool_decide (ContentModerationRequest.platform request = Some (lit "youtube"))
     && includes (categories r) (lit "explicit_content")
  then push_recommendations [ageRestrict] (set_severity (VStr (lit "high")) r)
  else r.

(** The condition of the confidence-threshold adjustment. *)
Definition belowThreshold (r : t) : bool :=
  js_lt (confidence r) (Fin 0.5) && is_string (lit "low") (severity r).

Definition thresholdRule (r : t) : t :=
  if belowThreshold r then set_isProblematic (VBool false) r else r.

Definition categoryRule (r : t) : t :=
  push_recommendations (getRecommendationsForCategories (categories r)) r.

(** [finalResponse] when the confidence-threshold adjustment is reached. *)
Definition beforeThreshold (g : GeminiResponse.t)
    (request : ContentModerationRequest.t) : t :=
  platformRule request (highRule (criticalRule (copyResponse g))).

Definition applyBusinessRules (geminiResponse : GeminiResponse.t)
    (request : ContentModerationRequest.t) : t :=
  let finalResponse := copyResponse geminiResponse in
  if hasApiError (categories finalResponse)
  then apiErrorOverride finalResponse
  else categoryRule (thresholdRule (beforeThreshold geminiResponse request)).

(** *** [moderateContent] *)

(** The injected classifier service: its [moderateContent], with the log of
    prompts it extends. *)
Definition Service : Type :=
  ContentModerationRequest.t -> list jsstring ->
  exn GeminiResponse.t * list jsstring.

Definition moderateContent (geminiService : Service)
    (request : ContentModerationRequest.t) (log : list jsstring)
  : exn t * list jsstring :=
  let basicValidation :=
    performBasicValidation (ContentModerationRequest.content request) in
  if truthy (isProblematic basicValidation) then (Val basicValidation, log)
  else
    let '(geminiResponse, log') := geminiService request log in
    (g ← geminiResponse; Val (applyBusinessRules g request), log').

End WithHost.

(** *** [initializeCategories] and [getCategories] *)

Definition initializeCategories : list ModerationCategory.t :=
  [ ModerationCategory.mk (lit "hate_speech")
      (lit "Content that attacks or demeans groups based on protected characteristics")
      (lit "high");
    ModerationCategory.mk (lit "harassment")
      (lit "Content intended to harass, bully, or intimidate")
      (lit "high");
    ModerationCategory.mk (lit "violence")
      (lit "Content promoting or glorifying violence")
      (lit "critical");
    ModerationCategory.mk (lit "explicit_content")
      (lit "Sexual or adult content")
      (lit "medium");
    ModerationCategory.mk (lit "misinformation")
      (lit "False or misleading information")
      (lit "medium");
    ModerationCategory.mk (lit "spam")
      (lit "Repetitive or promotional content")
      (lit "low");
    ModerationCategory.mk (lit "self_harm")
      (lit "Content promoting self-harm or suicide")
      (lit "critical");
    ModerationCategory.mk (lit "illegal_activities")
      (lit "Content promoting illegal activities")
      (lit "critical");
    ModerationCategory.mk (lit "terrorism")
      (lit "Content promoting terrorism or extremism")
      (lit "critical") ].

(** [this.categories] is set once, by the constructor. *)
Definition getCategories : list ModerationCategory.t := initializeCategories.

End ContentModerator.

(** ** The wiring of the moderation router *)

(** [new ContentModerator(new GeminiService(key))]: the orchestrator over
    the real classifier service, for a given generative model. *)
Definition contentModerator `{Host} (model : GeminiService.Model)
  : ContentModerationRequest.t -> list jsstring ->
    exn ContentModerationResponse.t * list jsstring :=
  ContentModerator.moderateContent (GeminiService.moderateContent model).

(** ** The moderation controller *)

Module ModerationController.

(** What the handler leaves in [res]: [res.status(status).json({error,
    message, timestamp?})], or [res.json({success: true, data, timestamp})]
    with the default status 200.  [timestamp] is the reading of the clock
    when the reply is made. *)
Inductive reply (A : Type) : Type :=
  | Failure (status : N) (error message : jsstring) (timestamp : option jsstring)
  | Success (data : A) (timestamp : jsstring).
Arguments Failure {A} status error message timestamp.
Arguments Success {A} data timestamp.

(** An entry of the array a batch replies with. *)
Inductive item : Type :=
  | ItemSuccess (index : N) (data : ContentModerationResponse.t)
  | ItemFailure (index : N) (error : jsstring).

(** The orchestrator the controller was constructed with:
    its [moderateContent] on a request of the declared type. *)
Definition Moderator : Type :=
  ContentModerationRequest.t -> list jsstring ->
  exn ContentModerationResponse.t * list jsstring.

Definition stringOf (v : jsval) : option jsstring :=
  match v with
  | VStr s => Some s
  | _ => None
  end.

(** [contentModerator.moderateContent(request)] on a request as it comes
    out of the body parser.  Reading [request.content] throws on [null];
    [content.trim()] throws unless the content is a string (no other value
    of a parsed body has a callable [trim]).  [platform] is only ever
    compared with a string and [userId] is never read. *)
Definition moderateUntyped (moderate : Moderator) (request : jsval)
    (log : list jsstring) : exn ContentModerationResponse.t * list jsstring :=
  match get_property request (lit "content") with
  | Throw e => (Throw e, log)
  | Val (VStr content) =>
      let field k :=
        match get_property request (lit k) with
        | Val v => stringOf v
        | Throw _ => None
        end in
      moderate (ContentModerationRequest.mk content (field "userId")
                  (field "platform")) log
  | Val _ => (Throw TypeError, log)
  end.

Definition internalError (message : string) (now : jsstring)
  : reply ContentModerationResponse.t :=
  Failure 500 (lit "Internal server error") (lit message) (Some now).

(** [moderateContent(req, res)] for [req.body = body]. *)
Definition moderateContent (moderate : Moderator) (now : jsstring)
    (body : jsval) (log : list jsstring)
  : reply ContentModerationResponse.t * list jsstring :=
  match get_property body (lit "content") with
  | Throw _ => (internalError "Failed to moderate content" now, log)
  | Val content =>
      if negb (truthy content)
      then (Failure 400 (lit "Content is required")
              (lit "Please provide content to moderate") None, log)
      else
        let '(result, log') := moderateUntyped moderate body log in
        match result with
        | Val data => (Success data now, log')
        | Throw _ => (internalError "Failed to moderate content" now, log')
        end
  end.

(** [requests.map(async (request, index) => ...)]: the callbacks start in
    the order of the array, each running up to its call of the model before
    the next one starts, and none of them rejects; [Promise.all] keeps the
    order of the array. *)
Fixpoint moderateEach (moderate : Moderator) (index : N) (requests : list jsval)
    (log : list jsstring) : list item * list jsstring :=
  match requests with
  | [] => ([], log)
  | request :: rest =>
      let '(result, log') := moderateUntyped moderate request log in
      let entry :=
        match result with
        | Val data => ItemSuccess index data
        | Throw _ => ItemFailure index (lit "Failed to moderate content")
        end in
      let '(entries, log'') := moderateEach moderate (index + 1) rest log' in
      (entry :: entries, log'')
  end.

Definition invalidRequest : reply (list item) :=
  Failure 400 (lit "Invalid request")
    (lit "Please provide an array of content to moderate") None.

Definition tooManyRequests : reply (list item) :=
  Failure 400 (lit "Too many requests")
    (lit "Maximum 10 items allowed per batch request") None.

(** [moderateBatch(req, res)] for [req.body = body]. *)
Definition moderateBatch (moderate : Moderator) (now : jsstring)
    (body : jsval) (log : list jsstring) : reply (list item) * list jsstring :=
  match get_property body (lit "contents") with
  | Throw _ =>
      (Failure 500 (lit "Internal server error")
         (lit "Failed to process batch moderation") (Some now), log)
  | Val (VArr requests) =>
      if N.eqb (len requests) 0 then (invalidRequest, log)
      else if N.ltb 10 (len requests) then (tooManyRequests, log)
      else
        let '(results, log') := moderateEach moderate 0 requests log in
        (Success results now, log')
  | Val _ => (invalidRequest, log)
  end.

(** [getCategories(req, res)] *)
Definition getCategories (now : jsstring) : reply (list ModerationCategory.t) :=
  Success ContentModerator.getCategories now.

End ModerationController.

(** ** Vocabulary of the statements *)

(** The number of times [w] occurs in [ws]. *)
Definition occurrences (w : jsstring) (ws : list jsstring) : N :=
  len (filter (fun x => x = w) ws).

(** A word that reads as [undefined] in an empty object literal: neither
    [__proto__] nor the name of an inherited method. *)
Definition ordinaryWord (w : jsstring) : Prop :=
  w <> lit "__proto__" /\ ~ In w ContentModerator.inheritedMethods.

(** The count stored for [w], 0 when there is none. *)
Definition countOf (m : gmap jsstring ContentModerator.frequency) (w : jsstring)
  : N :=
  match m !! w with
  | Some (ContentModerator.Count c) => c
  | _ => 0%N
  end.

(** The maps the counting loop goes through when every word is ordinary:
    positive counts under keys longer than 2. *)
Definition countsOnly (m : gmap jsstring ContentModerator.frequency) : Prop :=
  forall k v, m !! k = Some v ->
  exists c, v = ContentModerator.Count c /\ (0 < c)%N /\ (2 < len k)%N.

(** The sentences [getRecommendationsForCategories] chooses from. *)
Definition categoryAdvice : list jsstring :=
  [ lit "Consider using more inclusive language";
    lit "Please be respectful in your communication";
    lit "Avoid content that promotes violence";
    lit "Please verify facts before sharing";
    lit "Avoid repetitive or promotional content" ].

(** The classification [parseGeminiResponse] builds when every property
    is missing. *)
Definition allDefaults : GeminiResponse.t :=
  GeminiResponse.mk (VBool false) (Fin 0) []
    (VStr (lit "No reasoning provided")) (VStr (lit "low")).

(** The back quote. *)
Definition backquote : N := 96%N.

(** What precedes the quoted content in the prompt. *)
Definition promptHead : jsstring :=
  lit "You are a content moderation AI. Analyze the following content and determine if it contains problematic material."
  ++ [10%N; 10%N] ++ lit "Content to analyze: ".

(** The entry a batch makes of the outcome of one item. *)
Definition entryOf (index : N) (result : exn ContentModerationResponse.t)
  : ModerationController.item :=
  match result with
  | Val data => ModerationController.ItemSuccess index data
  | Throw _ =>
      ModerationController.ItemFailure index (lit "Failed to moderate content")
  end.

Definition entryIndex (entry : ModerationController.item) : N :=
  match entry with
  | ModerationController.ItemSuccess index _ => index
  | ModerationController.ItemFailure index _ => index
  end.

(** ** A host for examples *)

(** ASCII lower-casing, a [JSON.parse] given by a finite table from texts
    to values (every other text is a syntax error), and [NaN] for the
    strings and arrays that are coerced. *)
Definition asciiLower (c : N) : N :=
  if N.leb 65 c && N.leb c 90 then (c + 32)%N else c.

Definition exampleHost (table : list (jsstring * jsval)) : Host := {|
  toLowerCase := List.map asciiLower;
  JSON_parse := own_property table;
  StringToNumber := fun _ => NaN;
  ArrayToNumber := fun _ => Val NaN
|}.

Definition hello : ContentModerationRequest.t :=
  ContentModerationRequest.mk (lit "Hello there") None None.

(** A classifier service that logs a prompt and rejects: any call of it is
    visible in the result and in the log. *)
Definition rejectingService : ContentModerator.Service :=
  fun _ log => (Throw (ThrownValue PNull), log ++ [lit "called"]).

(** A stubbed classifier service that answers with a fixed classification
    without calling any model. *)
Definition stubService (g : GeminiResponse.t) : ContentModerator.Service :=
  fun _ log => (Val g, log).

(** Two answers of a model, the second one fenced, and the values
    [JSON.parse] gives for them once cleaned. *)
Definition confidenceAnswer : jsstring :=
  lit "{" ++ GeminiService.quoted (lit "confidence") ++ lit ": 1.5}".

Definition severityObject : jsstring :=
  lit "{" ++ GeminiService.quoted (lit "severity") ++ lit ": "
  ++ GeminiService.quoted (lit "extreme") ++ lit "}".

Definition severityAnswer : jsstring :=
  lit "```json" ++ [10%N] ++ severityObject ++ [10%N] ++ lit "```".

Definition exampleTable : list (jsstring * jsval) :=
  [ (confidenceAnswer, VObj [(lit "confidence", VNum (Fin 1.5))]);
    (severityObject, VObj [(lit "severity", VStr (lit "extreme"))]) ].

(** A client library whose backend refuses a call made without a key with
    status 403, as the repository's test of [new GeminiService('')] expects
    of the real one, and answers every other call. *)
Definition keyCheckingSdk : GeminiService.Sdk :=
  fun apiKey _ _ =>
    if jsstring_eqb apiKey []
    then Throw (ThrownObject (Some (PNum (Fin 403))))
    else Val confidenceAnswer.

(** ** Properties of the decision normaliser *)

Section Normalizer.
Import ContentModerator ContentModerationResponse.

Lemma jsstring_eqb_true (a b : jsstring) : jsstring_eqb a b = true <-> a = b.
Proof. unfold jsstring_eqb. apply bool_decide_eq_true. Qed.

Lemma is_string_true (s : jsstring) (v : jsval) :
  is_string s v = true <-> v = VStr s.
Proof.
  destruct v; simpl; try (split; [discriminate | intros E; inversion E]).
  rewrite jsstring_eqb_true. split; [intros -> | intros [= ->]]; reflexivity.
Qed.

Lemma includes_true (l : list jsval) (s : jsstring) :
  includes l s = true <-> In (VStr s) l.
Proof.
  unfold includes. rewrite existsb_exists. split.
  - intros (v & Hin & Hv). apply is_string_true in Hv. now subst.
  - intros Hin. exists (VStr s). split; [assumption | now apply is_string_true].
Qed.

(** [hasApiError] holds exactly when some category is one of the four API
    error categories. *)
Lemma hasApiError_true (cats : list jsval) :
  hasApiError cats = true <->
  exists a, In a apiErrorCategories /\ In (VStr a) cats.
Proof.
  unfold hasApiError. rewrite existsb_exists. split.
  - intros (cat & Hin & Hcat). apply existsb_exists in Hcat as (a & Ha & Heq).
    apply is_string_true in Heq. subst. eauto.
  - intros (a & Ha & Hin). exists (VStr a). split; [assumption |].
    apply existsb_exists. exists a. split; [assumption | now apply is_string_true].
Qed.

(** The rules that follow the API-error test leave the categories and the
    reasoning of [finalResponse] alone. *)
Lemma criticalRule_frame r :
  categories (criticalRule r) = categories r
  /\ reasoning (criticalRule r) = reasoning r
  /\ severity (criticalRule r) = severity r.
Proof. unfold criticalRule. destruct (is_string _ _); repeat split. Qed.

Lemma highRule_frame r :
  categories (highRule r) = categories r
  /\ reasoning (highRule r) = reasoning r
  /\ severity (highRule r) = severity r.
Proof. unfold highRule. destruct (is_string _ _); repeat split. Qed.

Lemma platformRule_frame request r :
  categories (platformRule request r) = categories r
  /\ reasoning (platformRule request r) = reasoning r
  /\ confidence (platformRule request r) = confidence r
  /\ isProblematic (platformRule request r) = isProblematic r.
Proof. unfold platformRule. destruct (_ && _); repeat split. Qed.

Lemma thresholdRule_frame r :
  categories (thresholdRule r) = categories r
  /\ reasoning (thresholdRule r) = reasoning r
  /\ confidence (thresholdRule r) = confidence r
  /\ severity (thresholdRule r) = severity r
  /\ recommendations (thresholdRule r) = recommendations r.
Proof. unfold thresholdRule. destruct (belowThreshold r); repeat split. Qed.

Lemma categoryRule_frame r :
  categories (categoryRule r) = categories r
  /\ reasoning (categoryRule r) = reasoning r
  /\ confidence (categoryRule r) = confidence r
  /\ severity (categoryRule r) = severity r
  /\ isProblematic (categoryRule r) = isProblematic r.
Proof. repeat split. Qed.

(** C3. When a category of the classification is one of [api_rate_limit],
    [api_auth_error], [api_server_error], [api_error], the verdict of
    [applyBusinessRules] has [isProblematic] false whatever the
    classification said, its only recommendation is the unavailability
    notice (so neither the removal nor the human-review recommendation is
    there), and every other field is the classification's. *)
Theorem api_error_override (g : GeminiResponse.t)
    (request : ContentModerationRequest.t) :
  (exists a, In a apiErrorCategories /\ In (VStr a) (GeminiResponse.categories g)) ->
  let v := applyBusinessRules g request in
  isProblematic v = VBool false
  /\ recommendations v = [unavailable]
  /\ ~ In removalRequired (recommendations v)
  /\ ~ In humanReview (recommendations v)
  /\ confidence v = GeminiResponse.confidence g
  /\ severity v = GeminiResponse.severity g
  /\ categories v = GeminiResponse.categories g
  /\ reasoning v = GeminiResponse.reasoning g.
Proof.
  intros Hapi v. apply hasApiError_true in Hapi.
  subst v. unfold applyBusinessRules. cbn [copyResponse categories].
  rewrite Hapi. cbn.
  repeat split; try reflexivity.
  - intros [E | []]. vm_compute in E. discriminate.
  - intros [E | []]. vm_compute in E. discriminate.
Qed.

(** C9. The verdict of [applyBusinessRules] has the categories and the
    reasoning of the classification it was given, whatever the request. *)
Theorem categories_and_reasoning_preserved (g : GeminiResponse.t)
    (request : ContentModerationRequest.t) :
  categories (applyBusinessRules g request) = GeminiResponse.categories g
  /\ reasoning (applyBusinessRules g request) = GeminiResponse.reasoning g.
Proof.
  unfold applyBusinessRules. cbn [copyResponse categories].
  destruct (hasApiError _); [split; reflexivity |].
  unfold beforeThreshold.
  destruct (categoryRule_frame (thresholdRule (platformRule request
              (highRule (criticalRule (copyResponse g)))))) as (-> & -> & _).
  destruct (thresholdRule_frame (platformRule request
              (highRule (criticalRule (copyResponse g))))) as (-> & -> & _).
  destruct (platformRule_frame request
              (highRule (criticalRule (copyResponse g)))) as (-> & -> & _).
  destruct (highRule_frame (criticalRule (copyResponse g))) as (-> & -> & _).
  destruct (criticalRule_frame (copyResponse g)) as (-> & -> & _).
  split; reflexivity.
Qed.

(** What the severity floors and the platform rule leave in
    [isProblematic]: [true] for a critical or high classification, else the
    classifier's value. *)
Lemma beforeThreshold_isProblematic g request :
  isProblematic (beforeThreshold g request) =
  if is_string (lit "critical") (GeminiResponse.severity g)
     || is_string (lit "high") (GeminiResponse.severity g)
  then VBool true else GeminiResponse.isProblematic g.
Proof.
  unfold beforeThreshold.
  destruct (platformRule_frame request (highRule (criticalRule (copyResponse g))))
    as (_ & _ & _ & ->).
  unfold highRule.
  destruct (criticalRule_frame (copyResponse g)) as (_ & _ & ->).
  unfold criticalRule. cbn [copyResponse severity].
  destruct (is_string (lit "critical") _); destruct (is_string (lit "high") _);
    reflexivity.
Qed.

(** C8. When no category is an API error category, the verdict has the
    confidence and the severity that [finalResponse] has when the threshold
    adjustment is reached; [isProblematic] is forced to false if that
    confidence is below 0.5 and that severity is [low], and is left as the
    earlier rules set it otherwise.  In particular a problematic
    classification of severity [medium], confidence 0.2 and no category
    stays problematic with confidence 0.2. *)
Theorem low_confidence_suppression (g : GeminiResponse.t)
    (request : ContentModerationRequest.t) :
  ~ (exists a, In a apiErrorCategories /\ In (VStr a) (GeminiResponse.categories g)) ->
  let before := beforeThreshold g request in
  let v := applyBusinessRules g request in
  let suppressed :=
    js_lt (confidence v) (Fin 0.5) = true /\ severity v = VStr (lit "low") in
  confidence v = confidence before
  /\ severity v = severity before
  /\ (suppressed -> isProblematic v = VBool false)
  /\ (~ suppressed -> isProblematic v = isProblematic before)
  /\ (forall text request',
        let g' := GeminiResponse.mk (VBool true) (Fin 0.2) [] text
                    (VStr (lit "medium")) in
        isProblematic (applyBusinessRules g' request') = VBool true
        /\ confidence (applyBusinessRules g' request') = Fin 0.2).
Proof.
  intros Hapi before v suppressed.
  assert (Hno : hasApiError (GeminiResponse.categories g) = false).
  { destruct (hasApiError _) eqn:E; [| reflexivity].
    exfalso. apply Hapi. now apply hasApiError_true. }
  assert (Hv : v = categoryRule (thresholdRule before)).
  { subst v before. unfold applyBusinessRules. cbn [copyResponse categories].
    now rewrite Hno. }
  assert (Hc : confidence v = confidence before).
  { rewrite Hv. unfold thresholdRule. now destruct (belowThreshold before). }
  assert (Hs : severity v = severity before).
  { rewrite Hv. unfold thresholdRule. now destruct (belowThreshold before). }
  assert (Hb : belowThreshold before = true <-> suppressed).
  { subst suppressed. rewrite Hc, Hs. unfold belowThreshold.
    rewrite andb_true_iff, is_string_true. reflexivity. }
  repeat split; try assumption.
  - intros Hsup. apply Hb in Hsup. rewrite Hv. unfold thresholdRule.
    now rewrite Hsup.
  - intros Hsup. rewrite Hv. unfold thresholdRule.
    destruct (belowThreshold before) eqn:E; [| reflexivity].
    exfalso. apply Hsup, Hb. reflexivity.
  - unfold applyBusinessRules, beforeThreshold, platformRule.
    destruct (bool_decide _); reflexivity.
  - unfold applyBusinessRules, beforeThreshold, platformRule.
    destruct (bool_decide _); reflexivity.
Qed.

(** *** Confidence bounds *)

Lemma Math_max_unit_interval (a : jsnum) (q : Q) :
  in_unit_interval a -> (0 <= q)%Q -> (q <= 1)%Q ->
  in_unit_interval (Math_max a (Fin q)).
Proof.
  destruct a as [| |x|]; simpl; try contradiction.
  intros [H0 H1] Hq0 Hq1. destruct (Qlt_bool x q); simpl; split; assumption.
Qed.

(** [applyBusinessRules] keeps a confidence that lies in [0, 1] within
    [0, 1]: it copies it and at most raises it to 0.9 or to 0.8. *)
Lemma applyBusinessRules_unit_interval g request :
  in_unit_interval (GeminiResponse.confidence g) ->
  in_unit_interval (confidence (applyBusinessRules g request)).
Proof.
  intros Hg. unfold applyBusinessRules. cbn [copyResponse categories].
  destruct (hasApiError _); [exact Hg |].
  destruct (categoryRule_frame (thresholdRule (beforeThreshold g request)))
    as (_ & _ & -> & _).
  destruct (thresholdRule_frame (beforeThreshold g request)) as (_ & _ & -> & _).
  unfold beforeThreshold.
  destruct (platformRule_frame request (highRule (criticalRule (copyResponse g))))
    as (_ & _ & -> & _).
  assert (Hc : in_unit_interval (confidence (criticalRule (copyResponse g)))).
  { unfold criticalRule. destruct (is_string _ _); [| exact Hg].
    cbn. apply Math_max_unit_interval; [exact Hg | discriminate | discriminate]. }
  unfold highRule. destruct (is_string _ _); [| exact Hc].
  cbn. apply Math_max_unit_interval; [exact Hc | discriminate | discriminate].
Qed.

(** Without an API error category and with a severity that is neither
    [critical] nor [high], the verdict has the classifier's confidence as it
    is. *)
Lemma applyBusinessRules_confidence_copied g request :
  hasApiError (GeminiResponse.categories g) = false ->
  is_string (lit "critical") (GeminiResponse.severity g) = false ->
  is_string (lit "high") (GeminiResponse.severity g) = false ->
  confidence (applyBusinessRules g request) = GeminiResponse.confidence g.
Proof.
  intros Hno Hc Hh. unfold applyBusinessRules. cbn [copyResponse categories].
  rewrite Hno.
  destruct (categoryRule_frame (thresholdRule (beforeThreshold g request)))
    as (_ & _ & -> & _).
  destruct (thresholdRule_frame (beforeThreshold g request)) as (_ & _ & -> & _).
  unfold beforeThreshold.
  destruct (platformRule_frame request (highRule (criticalRule (copyResponse g))))
    as (_ & _ & -> & _).
  unfold highRule, criticalRule. cbn [copyResponse severity].
  rewrite Hc. cbn [copyResponse severity]. rewrite Hh. reflexivity.
Qed.

(** The severity of the verdict: [high] when the platform rule fires, else
    the classifier's severity as it came. *)
Lemma applyBusinessRules_severity g request :
  severity (applyBusinessRules g request) =
  if negb (hasApiError (GeminiResponse.categories g))
     && (bool_decide (ContentModerationRequest.platform request
                      = Some (lit "youtube"))
         && includes (GeminiResponse.categories g) (lit "explicit_content"))
  then VStr (lit "high") else GeminiResponse.severity g.
Proof.
  unfold applyBusinessRules. cbn [copyResponse categories].
  destruct (hasApiError _); [reflexivity |]. cbn [negb andb].
  destruct (categoryRule_frame (thresholdRule (beforeThreshold g request)))
    as (_ & _ & _ & -> & _).
  destruct (thresholdRule_frame (beforeThreshold g request))
    as (_ & _ & _ & -> & _).
  unfold beforeThreshold, platformRule.
  destruct (highRule_frame (criticalRule (copyResponse g))) as (-> & _ & Hs).
  destruct (criticalRule_frame (copyResponse g)) as (-> & _ & Hs').
  cbn [copyResponse categories].
  destruct (_ && _); [reflexivity |]. rewrite Hs, Hs'. reflexivity.
Qed.

End Normalizer.

(** ** Properties of the heuristic validator and of the orchestrator *)

Section Heuristics.
Import ContentModerator ContentModerationResponse.
Context `{Host}.

(** C4. For content whose trimmed length is 0, [moderateContent] fulfils
    with a verdict that is problematic, has the category [empty_content],
    severity [low] and confidence 1.0; the log of prompts is the one it was
    given, whatever the classifier service: the classifier is not called. *)
Theorem empty_content_short_circuit (geminiService : Service)
    (request : ContentModerationRequest.t) (log : list jsstring) :
  len (trim (ContentModerationRequest.content request)) = 0%N ->
  exists v,
    moderateContent geminiService request log = (Val v, log)
    /\ isProblematic v = VBool true
    /\ In (VStr (lit "empty_content")) (categories v)
    /\ severity v = VStr (lit "low")
    /\ confidence v = Fin 1.0.
Proof.
  intros Hlen. exists emptyContent.
  unfold moderateContent, performBasicValidation. rewrite Hlen. cbn.
  repeat split. now left.
Qed.

(** C5. For content whose trimmed length exceeds 10000, [moderateContent]
    fulfils with a problematic verdict of category [excessive_length],
    severity [medium] and confidence 0.8, and leaves the log of prompts as
    it was.  The repeated-character test is not consulted: the verdict is
    the same whether or not the content has a run of equal characters. *)
Theorem excessive_length_short_circuit (geminiService : Service)
    (request : ContentModerationRequest.t) (log : list jsstring) :
  (10000 < len (trim (ContentModerationRequest.content request)))%N ->
  exists v,
    moderateContent geminiService request log = (Val v, log)
    /\ isProblematic v = VBool true
    /\ categories v = [VStr (lit "excessive_length")]
    /\ severity v = VStr (lit "medium")
    /\ confidence v = Fin 0.8.
Proof.
  intros Hlen. exists excessiveLength.
  unfold moderateContent, performBasicValidation.
  destruct (N.eqb_spec (len (trim (ContentModerationRequest.content request))) 0)
    as [E | _]; [rewrite E in Hlen; lia |].
  apply N.ltb_lt in Hlen. rewrite Hlen. cbn. repeat split.
Qed.

(** *** The repeated-character test *)

Lemma starts_with_copies_true (c : N) (n : nat) (s : jsstring) :
  starts_with_copies c n s = true <-> exists post, s = repeat c n ++ post.
Proof.
  revert s. induction n as [| n IH]; intros s; simpl.
  - split; [intros _; now exists s | reflexivity].
  - destruct s as [| x s'].
    + split; [discriminate | intros (post & E); discriminate].
    + rewrite andb_true_iff, N.eqb_eq, IH. split.
      * intros (-> & post & ->). now exists post.
      * intros (post & E). injection E as -> ->. split; [reflexivity | now exists post].
Qed.

(** The test succeeds exactly on the strings that hold ten consecutive
    copies of a code unit that is not a line terminator. *)
Lemma test_repeated_char_true (s : jsstring) :
  test_repeated_char s = true <->
  exists pre c post, isLineTerminator c = false /\ s = pre ++ repeat c 10 ++ post.
Proof.
  induction s as [| x s IH]; cbn [test_repeated_char].
  - split; [discriminate |].
    intros (pre & c & post & _ & E). destruct pre; discriminate.
  - rewrite orb_true_iff, andb_true_iff, negb_true_iff, IH,
      starts_with_copies_true. split.
    + intros [(Hx & post & ->) | (pre & c & post & Hc & ->)].
      * exists [], x, post. split; [assumption | reflexivity].
      * exists (x :: pre), c, post. split; [assumption | reflexivity].
    + intros (pre & c & post & Hc & E). destruct pre as [| y pre].
      * left. simpl in E. injection E as -> ->. split; [assumption | now exists post].
      * right. injection E as -> ->. exists pre, c, post. now split.
Qed.

(** X23. Content that passes the empty and length checks and holds ten
    consecutive copies of a code unit other than a line terminator gets the
    repeated-character verdict. *)
Lemma repeated_characters_flagged (content pre post : jsstring) (c : N) :
  (0 < len (trim content))%N -> (len (trim content) <= 10000)%N ->
  isLineTerminator c = false ->
  content = pre ++ repeat c 10 ++ post ->
  performBasicValidation content = repeatedCharacters.
Proof.
  intros Hpos Hle Hc E. unfold performBasicValidation.
  destruct (N.eqb_spec (len (trim content)) 0) as [E0 | _]; [lia |].
  destruct (N.ltb_spec 10000 (len (trim content))) as [Hlt | _]; [lia |].
  replace (test_repeated_char content) with true; [reflexivity |].
  symmetry. apply test_repeated_char_true. eauto.
Qed.

(** *** The repetition check on short words *)

Lemma countWord_short (m : gmap jsstring frequency) (w : jsstring) :
  (len w <= 2)%N -> countWord m w = m.
Proof.
  intros Hw. unfold countWord.
  destruct (N.ltb_spec 2 (len w)) as [Hlt | _]; [lia | reflexivity].
Qed.

Lemma fold_countWord_short (ws : list jsstring) (m : gmap jsstring frequency) :
  Forall (fun w => (len w <= 2)%N) ws -> fold_left countWord ws m = m.
Proof.
  intros Hall. revert m. induction Hall as [| w ws Hw _ IH]; intros m; simpl.
  - reflexivity.
  - rewrite countWord_short by assumption. apply IH.
Qed.

Lemma maxFrequencyOf_empty : maxFrequencyOf ∅ = NegInf.
Proof. unfold maxFrequencyOf. rewrite map_to_list_empty. reflexivity. Qed.

Lemma js_div_NegInf_length (n : N) : js_div NegInf (of_N n) = NegInf.
Proof.
  unfold of_N, js_div, Qlt_bool.
  replace (Qle_bool 0 (inject_Z (Z.of_N n))) with true; [reflexivity |].
  symmetry. apply Qle_bool_iff. unfold Qle. simpl. lia.
Qed.

(** C10. For content that passes the empty, length and repeated-character
    checks and splits into more than 10 words none of which is longer than
    2, the frequency map is empty, [Math.max] of no value is [-Infinity],
    the repetition check does not flag, and [performBasicValidation] goes
    on to the special-character check. *)
Theorem short_words_never_flagged (content : jsstring) :
  (0 < len (trim content))%N -> (len (trim content) <= 10000)%N ->
  test_repeated_char content = false ->
  (10 < len (words content))%N ->
  Forall (fun w => (len w <= 2)%N) (words content) ->
  wordFrequencyOf (words content) = ∅
  /\ maxFrequencyOf (wordFrequencyOf (words content)) = NegInf
  /\ repetitionFlagged content = false
  /\ performBasicValidation content =
       (if specialCharsFlagged content then excessiveSpecialChars
        else validationPassed).
Proof.
  intros Hpos Hle Hrun Hmany Hshort.
  assert (Hmap : wordFrequencyOf (words content) = ∅).
  { unfold wordFrequencyOf. now apply fold_countWord_short. }
  assert (Hflag : repetitionFlagged content = false).
  { unfold repetitionFlagged. rewrite Hmap, maxFrequencyOf_empty,
      js_div_NegInf_length.
    destruct (N.ltb 10 (len (words content))); reflexivity. }
  repeat split.
  - exact Hmap.
  - rewrite Hmap. apply maxFrequencyOf_empty.
  - exact Hflag.
  - unfold performBasicValidation.
    destruct (N.eqb_spec (len (trim content)) 0) as [E0 | _]; [lia |].
    destruct (N.ltb_spec 10000 (len (trim content))) as [Hlt | _]; [lia |].
    rewrite Hrun, Hflag. reflexivity.
Qed.

End Heuristics.

(** ** Properties of the classifier adapter *)

Section Adapter.
Import GeminiService.
Context `{Host}.

Lemma js_ge_Fin (q r : Q) : js_ge (Fin q) (Fin r) = Qle_bool r q.
Proof. unfold js_ge, js_lt, Qlt_bool. apply negb_involutive. Qed.

(** The handler on an error object with a finite numeric status. *)
Lemma handleError_numeric (q : Q) :
  handleError (ThrownObject (Some (PNum (Fin q)))) =
  Val (if Qeq_bool q 429 then rateLimitResponse
       else if Qeq_bool q 403 || Qeq_bool q 401 then authErrorResponse
       else if Qle_bool 500 q then serverErrorResponse
       else genericErrorResponse).
Proof.
  unfold handleError. cbn [prim_val is_number js_num_eq ToNumber_prim].
  rewrite js_ge_Fin.
  destruct (Qeq_bool q 429); [reflexivity |].
  destruct (Qeq_bool q 403 || Qeq_bool q 401); [reflexivity |].
  destruct (Qle_bool 500 q); reflexivity.
Qed.

(** The handler always fulfils, with one of the four fallbacks. *)
Lemma handleError_fallback (error : thrown) :
  exists category text,
    In category ContentModerator.apiErrorCategories
    /\ handleError error =
       Val (GeminiResponse.mk (VBool false) (Fin 0.5) [VStr category]
              (VStr text) (VStr (lit "low"))).
Proof.
  unfold handleError.
  destruct error as [v | [status |]];
    [ | destruct (is_number (Fin 429) _);
        [ | destruct (_ || _); [ | destruct (js_ge _ _)]] | ];
    eexists _, _; (split; [| reflexivity]); vm_compute; tauto.
Qed.

(** [GeminiService.moderateContent] fulfils on every path. *)
Lemma moderateContent_fulfils (model : Model)
    (request : ContentModerationRequest.t) (log : list jsstring) :
  exists r, fst (moderateContent model request log) = Val r.
Proof.
  unfold moderateContent. cbn [fst].
  destruct (model _) as [text | error]; cbn.
  - eauto.
  - destruct (handleError_fallback error) as (c & t & _ & ->). eauto.
Qed.

(** C7 (as the code has it).  The service constructed with any key
    always fulfils.  When the call of the model throws, the result is not
    problematic, has confidence 0.5, severity [low] and a single category,
    which the status of the thrown error alone decides: [api_rate_limit]
    for the number 429, [api_auth_error] for the number 401 or 403,
    [api_server_error] for a number of at least 500 (infinity included) and
    for a string that converts to one, and [api_error] for everything else:
    any other number, [NaN], any other string, [null], [undefined], a
    boolean, an error without status, a thrown primitive.  The key does not
    enter: a call that fails for want of a credential is classified by its
    status like any other. *)
Theorem failures_classified_by_status (sdk : Sdk) (apiKey : jsstring)
    (request : ContentModerationRequest.t) (log : list jsstring) :
  (exists r, fst (withKey sdk apiKey request log) = Val r)
  /\ forall error,
      sdk apiKey modelName
        (buildModerationPrompt (ContentModerationRequest.content request))
        = Throw error ->
      exists category text,
        fst (withKey sdk apiKey request log) =
          Val (GeminiResponse.mk (VBool false) (Fin 0.5) [VStr category]
                 (VStr text) (VStr (lit "low")))
        /\ In category ContentModerator.apiErrorCategories
        /\ (forall q, error = ThrownObject (Some (PNum (Fin q))) ->
             (q == 429 -> category = lit "api_rate_limit")%Q
             /\ (q == 401 \/ q == 403 -> category = lit "api_auth_error")%Q
             /\ (500 <= q -> category = lit "api_server_error")%Q
             /\ (~ q == 429 -> ~ q == 401 -> ~ q == 403 -> q < 500 ->
                 category = lit "api_error")%Q)
        /\ (error = ThrownObject (Some (PNum PosInf)) ->
            category = lit "api_server_error")
        /\ (forall s, error = ThrownObject (Some (PStr s)) ->
             category = if js_ge (StringToNumber s) (Fin 500)
                        then lit "api_server_error" else lit "api_error")
        /\ (forall p, error = ThrownObject (Some p) ->
             p = PUndef \/ p = PNull \/ (exists b, p = PBool b)
             \/ p = PNum NaN \/ p = PNum NegInf ->
             category = lit "api_error")
        /\ (error = ThrownObject None -> category = lit "api_error")
        /\ (forall v, error = ThrownValue v -> category = lit "api_error").
Proof.
  unfold withKey. split.
  - apply moderateContent_fulfils.
  - unfold moderateContent. cbn [fst]. intros error ->. cbn.
    destruct (handleError_fallback error) as (c & t & Hin & E).
    exists c, t. rewrite E. split; [reflexivity |]. split; [assumption |].
    split; [| split; [| split; [| split; [| split]]]].
    + intros q ->. rewrite handleError_numeric in E.
      split; [| split; [| split]].
      * intros Hq. apply Qeq_bool_iff in Hq. rewrite Hq in E. now injection E.
      * intros Hq. destruct (Qeq_bool q 429) eqn:E429.
        { apply Qeq_bool_iff in E429. destruct Hq as [Hq | Hq]; lra. }
        replace (Qeq_bool q 403 || Qeq_bool q 401) with true in E;
          [now injection E |].
        symmetry. apply orb_true_iff.
        destruct Hq as [Hq | Hq]; [right | left]; now apply Qeq_bool_iff.
      * intros Hq. destruct (Qeq_bool q 429) eqn:E429.
        { apply Qeq_bool_iff in E429. lra. }
        destruct (Qeq_bool q 403 || Qeq_bool q 401) eqn:Eauth.
        { apply orb_true_iff in Eauth as [E1 | E1];
            apply Qeq_bool_iff in E1; lra. }
        apply Qle_bool_iff in Hq. rewrite Hq in E. now injection E.
      * intros H429 H401 H403 Hq. destruct (Qeq_bool q 429) eqn:E429.
        { apply Qeq_bool_iff in E429. contradiction. }
        destruct (Qeq_bool q 403 || Qeq_bool q 401) eqn:Eauth.
        { apply orb_true_iff in Eauth as [E1 | E1]; apply Qeq_bool_iff in E1;
            contradiction. }
        destruct (Qle_bool 500 q) eqn:E500.
        { apply Qle_bool_iff in E500. lra. }
        now injection E.
    + intros ->. cbn in E. now injection E.
    + intros s ->. cbn in E.
      destruct (js_ge (StringToNumber s) (Fin 500)); now injection E.
    + intros p -> Hp.
      destruct Hp as [-> | [-> | [(b & ->) | [-> | ->]]]];
        try destruct b; cbn in E; now injection E.
    + intros ->. cbn in E. now injection E.
    + intros v ->. cbn in E. now injection E.
Qed.

(** *** The confidence of a parsed response *)

Lemma get_property_defined (parsed : jsval) (k0 : jsstring) (v0 : jsval) :
  get_property parsed k0 = Val v0 ->
  forall k, exists v, get_property parsed k = Val v.
Proof.
  intros E k. destruct parsed; try discriminate; cbn; eauto.
  destruct (own_property fields k); eauto.
Qed.

(** [Math.max(0, Math.min(1, n))] for a number [n] other than [NaN]. *)
Lemma clamp_unit_interval (n : jsnum) :
  n <> NaN -> in_unit_interval (Math_max (Fin 0) (Math_min (Fin 1) n)).
Proof.
  destruct n as [| |q|]; intros Hn; [contradiction | | | ]; cbn.
  - split; discriminate.
  - unfold Qlt_bool.
    destruct (Qle_bool 1 q) eqn:E1; cbn.
    + split; discriminate.
    + destruct (Qle_bool q 0) eqn:E0; cbn.
      * split; discriminate.
      * assert (~ (1 <= q)%Q) by (rewrite <- Qle_bool_iff, E1; discriminate).
        assert (~ (q <= 0)%Q) by (rewrite <- Qle_bool_iff, E0; discriminate).
        split; lra.
  - split; discriminate.
Qed.

Lemma clamp_finite (q : Q) :
  exists q', Math_max (Fin 0) (Math_min (Fin 1) (Fin q)) = Fin q'
             /\ (q' == Qmax 0 (Qmin 1 q))%Q.
Proof.
  assert (Hspec : forall q' : Q,
             ((1 <= q)%Q -> (q' == 1)%Q) ->
             (~ (1 <= q)%Q -> (q <= 0)%Q -> (q' == 0)%Q) ->
             (~ (1 <= q)%Q -> ~ (q <= 0)%Q -> (q' == q)%Q) ->
             (q' == Qmax 0 (Qmin 1 q))%Q).
  { intros q' Ha Hb Hc.
    destruct (Q.min_spec 1 q) as [[Hlt ->] | [Hle ->]];
      [destruct (Q.max_spec 0 1) as [[_ ->] | [? ->]]
      | destruct (Q.max_spec 0 q) as [[? ->] | [? ->]] ].
    - destruct (Qlt_le_dec q 1); [| now apply Ha]. lra.
    - lra.
    - destruct (Qlt_le_dec q 1) as [Hq | Hq]; [| rewrite Ha; lra].
      apply Hc; lra.
    - destruct (Qlt_le_dec q 1) as [Hq | Hq]; [| rewrite Ha; lra].
      apply Hb; lra. }
  cbn [Math_max Math_min js_lt]. unfold Qlt_bool.
  destruct (Qle_bool 1 q) eqn:E1; cbn [negb js_lt]; unfold Qlt_bool.
  - apply Qle_bool_iff in E1. exists 1%Q. split; [reflexivity |].
    apply Hspec; intros; try contradiction; reflexivity.
  - assert (H1 : ~ (1 <= q)%Q) by (rewrite <- Qle_bool_iff, E1; discriminate).
    destruct (Qle_bool q 0) eqn:E0; cbn [negb].
    + apply Qle_bool_iff in E0. exists 0%Q. split; [reflexivity |].
      apply Hspec; intros; try contradiction; reflexivity.
    + assert (H0 : ~ (q <= 0)%Q) by (rewrite <- Qle_bool_iff, E0; discriminate).
      exists q. split; [reflexivity |].
      apply Hspec; intros; try contradiction; reflexivity.
Qed.

(** The number that [Math.min] receives when the [confidence] property is
    missing or a number: 0 for a missing or falsy one, else the number. *)
Lemma confidence_operand (v : jsval) :
  v = VUndef \/ (exists n, v = VNum n) ->
  exists n, ToNumber (js_or v (VNum (Fin 0))) = Val n
            /\ n <> NaN
            /\ (v = VUndef -> n = Fin 0)
            /\ (forall q, v = VNum (Fin q) -> exists q', n = Fin q' /\ (q' == q)%Q).
Proof.
  intros [-> | (n & ->)].
  - exists (Fin 0). cbn.
    split; [reflexivity |]. split; [discriminate |].
    split; [reflexivity | discriminate].
  - destruct n as [| |q|]; unfold js_or; cbn [truthy].
    + exists (Fin 0).
      split; [reflexivity |]. split; [discriminate |].
      split; discriminate.
    + exists NegInf.
      split; [reflexivity |]. split; [discriminate |].
      split; discriminate.
    + destruct (Qeq_bool q 0) eqn:E0; cbn [negb ToNumber].
      * apply Qeq_bool_iff in E0. exists (Fin 0).
        split; [reflexivity |]. split; [discriminate |].
        split; [discriminate |].
        intros q0 [= <-]. exists 0%Q. split; [reflexivity | lra].
      * exists (Fin q).
        split; [reflexivity |]. split; [discriminate |].
        split; [discriminate |].
        intros q0 [= <-]. exists q. split; reflexivity.
    + exists PosInf.
      split; [reflexivity |]. split; [discriminate |].
      split; discriminate.
Qed.

(** A parsed value whose [confidence] is missing or a number is turned into
    a response, with the clamped operand as confidence. *)
Lemma responseOfParsed_numeric (parsed v : jsval) :
  get_property parsed (lit "confidence") = Val v ->
  v = VUndef \/ (exists n, v = VNum n) ->
  exists r n,
    responseOfParsed parsed = Val r
    /\ ToNumber (js_or v (VNum (Fin 0))) = Val n
    /\ GeminiResponse.confidence r = Math_max (Fin 0) (Math_min (Fin 1) n).
Proof.
  intros Hc Hv.
  destruct (confidence_operand v Hv) as (n & Hn & _).
  destruct (get_property_defined _ _ _ Hc (lit "isProblematic")) as (vp & Ep).
  destruct (get_property_defined _ _ _ Hc (lit "categories")) as (vcat & Ecat).
  destruct (get_property_defined _ _ _ Hc (lit "reasoning")) as (vr & Er).
  destruct (get_property_defined _ _ _ Hc (lit "severity")) as (vs & Es).
  unfold responseOfParsed.
  rewrite Ep, Hc, Ecat, Er, Es. cbn [mbind exn_bind bind].
  rewrite Hn. cbn [mbind exn_bind bind].
  eexists _, n. split; [reflexivity |]. split; reflexivity.
Qed.

(** [parseGeminiResponse] yields the parse-failure response or the response
    built from the parsed value. *)
Lemma parseGeminiResponse_cases (text : jsstring) :
  match JSON_parse (trim (strip_fences text)) with
  | Some parsed =>
      match responseOfParsed parsed with
      | Val r => parseGeminiResponse text = r
      | Throw _ => parseGeminiResponse text = parseFailure
      end
  | None => parseGeminiResponse text = parseFailure
  end.
Proof.
  unfold parseGeminiResponse.
  destruct (JSON_parse _) as [parsed |]; cbn [mbind exn_bind bind]; [| reflexivity].
  destruct (responseOfParsed parsed); reflexivity.
Qed.

(** The confidence of every response [GeminiService.moderateContent] fulfils
    with, given what the parser did with the text if there was one. *)
Lemma parseFailure_confidence :
  in_unit_interval (GeminiResponse.confidence parseFailure).
Proof. cbn. split; discriminate. Qed.

(** What the classification owes to a parsed text whose [confidence] is
    missing or a number. *)
Lemma classification_of_parsed (model : Model)
    (request : ContentModerationRequest.t) (log : list jsstring)
    (g : GeminiResponse.t) (text : jsstring) (parsed v : jsval) :
  fst (moderateContent model request log) = Val g ->
  model (buildModerationPrompt (ContentModerationRequest.content request))
    = Val text ->
  JSON_parse (trim (strip_fences text)) = Some parsed ->
  get_property parsed (lit "confidence") = Val v ->
  v = VUndef \/ (exists n, v = VNum n) ->
  exists n, ToNumber (js_or v (VNum (Fin 0))) = Val n
            /\ n <> NaN
            /\ (v = VUndef -> n = Fin 0)
            /\ (forall q, v = VNum (Fin q) ->
                          exists q', n = Fin q' /\ (q' == q)%Q)
            /\ GeminiResponse.confidence g
               = Math_max (Fin 0) (Math_min (Fin 1) n).
Proof.
  intros Hg Hm Hp Hc Hv.
  unfold moderateContent in Hg. cbn [fst] in Hg.
  destruct (confidence_operand v Hv) as (n & Hn & Hnan & Hundef & Hfin).
  destruct (responseOfParsed_numeric parsed v Hc Hv) as (r & n' & Hr & Hn' & Hconf).
  rewrite Hn in Hn'. injection Hn' as <-.
  exists n. repeat (split; [assumption |]).
  rewrite Hm in Hg. cbn in Hg. injection Hg as <-.
  pose proof (parseGeminiResponse_cases text) as Hcases.
  rewrite Hp, Hr in Hcases. now rewrite Hcases.
Qed.

Lemma classification_in_unit_interval (model : Model)
    (request : ContentModerationRequest.t) (log : list jsstring)
    (g : GeminiResponse.t) :
  fst (moderateContent model request log) = Val g ->
  (forall text parsed v,
      model (buildModerationPrompt (ContentModerationRequest.content request))
        = Val text ->
      JSON_parse (trim (strip_fences text)) = Some parsed ->
      get_property parsed (lit "confidence") = Val v ->
      v = VUndef \/ exists n, v = VNum n) ->
  in_unit_interval (GeminiResponse.confidence g).
Proof.
  intros Hg Hnum.
  pose proof (classification_of_parsed model request log g) as Hparsed.
  unfold moderateContent in Hg. cbn [fst] in Hg.
  destruct (model _) as [text | error] eqn:Hm; cbn in Hg.
  - pose proof (Hparsed text) as Hparsed'.
    injection Hg as <-.
    pose proof (parseGeminiResponse_cases text) as Hcases.
    destruct (JSON_parse (trim (strip_fences text))) as [parsed |] eqn:Hp;
      [| rewrite Hcases; apply parseFailure_confidence].
    destruct (get_property parsed (lit "confidence")) as [v | e] eqn:Hc.
    + destruct (Hparsed' parsed v) as (n & _ & Hnan & _ & _ & ->);
        try reflexivity; try assumption.
      * unfold moderateContent. cbn [fst]. rewrite Hm. reflexivity.
      * eapply Hnum; eauto.
      * now apply clamp_unit_interval.
    + replace (responseOfParsed parsed) with (@Throw GeminiResponse.t TypeError)
        in Hcases; [rewrite Hcases; apply parseFailure_confidence |].
      destruct parsed; try discriminate; try reflexivity.
      cbn in Hc. destruct (own_property fields _); discriminate.
  - destruct (handleError_fallback error) as (c & t & _ & E).
    rewrite E in Hg. injection Hg as <-. cbn. split; discriminate.
Qed.

(** C1 (as the code has it).  Let [g] be the classification that
    [GeminiService.moderateContent] fulfils with, for a model whose text,
    when it parses, has a [confidence] property that is missing or a
    number.  Then the confidence of [g] lies in [0, 1] and so does the
    confidence of the verdict [applyBusinessRules] makes of [g]; a missing
    property gives 0 and a finite number [q] gives [q] clipped to [0, 1]. *)
Theorem adapter_confidence_bounded (model : Model)
    (request request' : ContentModerationRequest.t) (log : list jsstring)
    (g : GeminiResponse.t) :
  let prompt := buildModerationPrompt (ContentModerationRequest.content request) in
  fst (moderateContent model request log) = Val g ->
  (forall text parsed v,
      model prompt = Val text ->
      JSON_parse (trim (strip_fences text)) = Some parsed ->
      get_property parsed (lit "confidence") = Val v ->
      v = VUndef \/ exists n, v = VNum n) ->
  in_unit_interval (GeminiResponse.confidence g)
  /\ in_unit_interval
       (ContentModerationResponse.confidence
          (ContentModerator.applyBusinessRules g request'))
  /\ (forall text parsed,
        model prompt = Val text ->
        JSON_parse (trim (strip_fences text)) = Some parsed ->
        (get_property parsed (lit "confidence") = Val VUndef ->
         GeminiResponse.confidence g = Fin 0)
        /\ (forall q,
             get_property parsed (lit "confidence") = Val (VNum (Fin q)) ->
             exists q', GeminiResponse.confidence g = Fin q'
                        /\ (q' == Qmax 0 (Qmin 1 q))%Q)).
Proof.
  intros prompt Hg Hnum.
  pose proof (classification_in_unit_interval model request log g Hg Hnum)
    as Hunit.
  split; [exact Hunit |].
  split; [now apply applyBusinessRules_unit_interval |].
  intros text parsed Hm Hp. split.
  - intros Hc.
    destruct (classification_of_parsed model request log g text parsed VUndef
                Hg Hm Hp Hc (or_introl eq_refl))
      as (n & _ & _ & Hundef & _ & ->).
    rewrite (Hundef eq_refl). reflexivity.
  - intros q Hc.
    destruct (classification_of_parsed model request log g text parsed
                (VNum (Fin q)) Hg Hm Hp Hc (or_intror (ex_intro _ _ eq_refl)))
      as (n & _ & _ & _ & Hfin & ->).
    destruct (Hfin q eq_refl) as (q1 & -> & Hq1).
    destruct (clamp_finite q1) as (q' & -> & Hq').
    exists q'. split; [reflexivity |]. now rewrite Hq', Hq1.
Qed.

(** C2 (the code at an unrecognised severity).  When the text of the model
    parses to an object whose only property is a non-empty string
    [severity], the verdict of the pipeline carries that string as its
    severity, whether or not it is one of the four levels. *)
Theorem unrecognized_severity_passes_through (model : Model)
    (request : ContentModerationRequest.t) (log : list jsstring)
    (text sev : jsstring) :
  truthy (ContentModerationResponse.isProblematic
            (ContentModerator.performBasicValidation
               (ContentModerationRequest.content request))) = false ->
  model (buildModerationPrompt (ContentModerationRequest.content request))
    = Val text ->
  JSON_parse (trim (strip_fences text)) = Some (VObj [(lit "severity", VStr sev)]) ->
  sev <> [] ->
  exists v,
    fst (contentModerator model request log) = Val v
    /\ ContentModerationResponse.severity v = VStr sev.
Proof.
  intros Hpass Hm Hp Hsev.
  assert (Hr : parseGeminiResponse text =
               GeminiResponse.mk (VBool false) (Fin 0) []
                 (VStr (lit "No reasoning provided")) (VStr sev)).
  { pose proof (parseGeminiResponse_cases text) as Hcases. rewrite Hp in Hcases.
    replace (responseOfParsed (VObj [(lit "severity", VStr sev)]))
      with (Val (GeminiResponse.mk (VBool false) (Fin 0) []
                   (VStr (lit "No reasoning provided")) (VStr sev))) in Hcases;
      [exact Hcases |].
    destruct sev as [| c sev']; [contradiction | reflexivity]. }
  unfold contentModerator, ContentModerator.moderateContent.
  rewrite Hpass. unfold moderateContent. rewrite Hm. cbn [try_catch mbind exn_bind bind fst].
  rewrite Hr. eexists. split; [reflexivity |].
  rewrite applyBusinessRules_severity. cbn. now rewrite andb_false_r.
Qed.

(** *** The severity of a parsed response *)

(** X24. A missing or otherwise falsy [severity] becomes ["low"]. *)
Lemma missing_severity_defaults_to_low (parsed v : jsval) (r : GeminiResponse.t) :
  responseOfParsed parsed = Val r ->
  get_property parsed (lit "severity") = Val v ->
  truthy v = false ->
  GeminiResponse.severity r = VStr (lit "low").
Proof.
  unfold responseOfParsed. intros Hr Hs Hv.
  destruct (get_property parsed (lit "isProblematic")); [| discriminate].
  destruct (get_property parsed (lit "confidence")); [| discriminate].
  cbn [mbind exn_bind bind] in Hr.
  destruct (ToNumber _); [| discriminate].
  destruct (get_property parsed (lit "categories")); [| discriminate].
  destruct (get_property parsed (lit "reasoning")); [| discriminate].
  rewrite Hs in Hr. cbn [mbind exn_bind bind] in Hr. injection Hr as <-.
  cbn [GeminiResponse.severity]. unfold js_or. now rewrite Hv.
Qed.

(** X25. A classification whose severity is one of the four levels gets a
    verdict whose severity is one of the four levels. *)
Lemma recognised_severity_stays_recognised (g : GeminiResponse.t)
    (request : ContentModerationRequest.t) :
  is_severity_level (GeminiResponse.severity g) = true ->
  is_severity_level
    (ContentModerationResponse.severity
       (ContentModerator.applyBusinessRules g request)) = true.
Proof.
  intros Hg. rewrite applyBusinessRules_severity.
  destruct (_ && _); [reflexivity | exact Hg].
Qed.

(** *** The whole pipeline *)

Lemma performBasicValidation_confidence (content : jsstring) :
  in_unit_interval
    (ContentModerationResponse.confidence
       (ContentModerator.performBasicValidation content)).
Proof.
  unfold ContentModerator.performBasicValidation.
  repeat (match goal with |- context [if ?b then _ else _] => destruct b end);
    cbn; split; discriminate.
Qed.

(** X26. With the real classifier service and a model whose text, when it
    parses, has a missing or numeric [confidence], [moderateContent]
    fulfils with a verdict whose confidence lies in [0, 1]. *)
Lemma pipeline_confidence_bounded (model : Model)
    (request : ContentModerationRequest.t) (log : list jsstring) :
  (forall text parsed v,
      model (buildModerationPrompt (ContentModerationRequest.content request))
        = Val text ->
      JSON_parse (trim (strip_fences text)) = Some parsed ->
      get_property parsed (lit "confidence") = Val v ->
      v = VUndef \/ exists n, v = VNum n) ->
  exists v,
    fst (contentModerator model request log) = Val v
    /\ in_unit_interval (ContentModerationResponse.confidence v).
Proof.
  intros Hnum. unfold contentModerator, ContentModerator.moderateContent.
  destruct (truthy _).
  - eexists. split; [reflexivity | apply performBasicValidation_confidence].
  - destruct (moderateContent_fulfils model request log) as (g & Hg).
    pose proof (classification_in_unit_interval model request log g Hg Hnum)
      as Hunit.
    destruct (moderateContent model request log) as [r log'] eqn:E.
    cbn [fst] in Hg. subst r. cbn.
    eexists. split; [reflexivity |].
    now apply applyBusinessRules_unit_interval.
Qed.

End Adapter.

(** ** Concrete runs *)

Section Examples.
Import ContentModerator ContentModerationResponse.

Example trim_example : trim (lit "  ab c ") = lit "ab c".
Proof. reflexivity. Qed.

Example split_example :
  split_ws (lit " a  b ") = [lit ""; lit "a"; lit "b"; lit ""].
Proof. reflexivity. Qed.

Example strip_fences_example :
  strip_fences (lit "```json{}```") = lit "{}".
Proof. reflexivity. Qed.

Example twelve_letters_are_spam :
  performBasicValidation (H := exampleHost []) (lit "aaaaaaaaaaaa")
  = repeatedCharacters.
Proof. vm_compute. reflexivity. Qed.

Example a_third_of_the_words :
  repetitionFlagged (H := exampleHost [])
    (lit "foo foo foo foo a a a a a a a a") = true
  /\ repetitionFlagged (H := exampleHost [])
       (lit "foo foo foo a a a a a a a a a") = false.
Proof. split; vm_compute; reflexivity. Qed.

Example critical_floor :
  let g := GeminiResponse.mk (VBool true) (Fin 0.3) [VStr (lit "violence")]
             (VStr (lit "threat")) (VStr (lit "critical")) in
  let v := applyBusinessRules g hello in
  isProblematic v = VBool true
  /\ confidence v = Fin 0.9
  /\ recommendations v =
       [removalRequired; lit "Avoid content that promotes violence"].
Proof. vm_compute. repeat split. Qed.

(** C1, the claim as stated, fails: with a stubbed classifier that answers
    confidence 1.5 the verdict of [moderateContent] has confidence 1.5. *)
Lemma stub_confidence_not_clamped :
  let g := GeminiResponse.mk (VBool false) (Fin 1.5) []
             (VStr (lit "stub")) (VStr (lit "low")) in
  exists v,
    moderateContent (H := exampleHost []) (stubService g) hello []
      = (Val v, [])
    /\ confidence v = Fin 1.5
    /\ ~ in_unit_interval (confidence v).
Proof.
  eexists. split; [vm_compute; reflexivity |]. split; [reflexivity |].
  cbn. intros [_ Hle]. lra.
Qed.

(** C6, the code at a run of line feeds: the content ["a"], ten line feeds,
    ["b"] has trimmed length 12 and holds ten consecutive copies of one
    character, yet no host makes [performBasicValidation] answer the
    repeated-character verdict, and with ASCII lower-casing the validation
    passes. *)
Lemma line_feed_run_not_flagged :
  let content := lit "a" ++ repeat 10%N 10 ++ lit "b" in
  len (trim content) = 12%N
  /\ (exists pre c post, content = pre ++ repeat c 10 ++ post)
  /\ test_repeated_char content = false
  /\ (forall H : Host, performBasicValidation content <> repeatedCharacters)
  /\ performBasicValidation (H := exampleHost []) content = validationPassed
  /\ isProblematic (performBasicValidation (H := exampleHost []) content)
     = VBool false.
Proof.
  intros content.
  split; [vm_compute; reflexivity |].
  split; [exists (lit "a"), 10%N, (lit "b"); reflexivity |].
  split; [vm_compute; reflexivity |].
  split; [| split; vm_compute; reflexivity].
  intros H. unfold performBasicValidation.
  replace (N.eqb (len (trim content)) 0) with false by (vm_compute; reflexivity).
  replace (N.ltb 10000 (len (trim content))) with false by (vm_compute; reflexivity).
  replace (test_repeated_char content) with false by (vm_compute; reflexivity).
  destruct (repetitionFlagged content); [discriminate |].
  destruct (specialCharsFlagged content); discriminate.
Qed.

(** C7, the claim as stated, fails at the missing credential.  The
    service constructed with the empty key over a backend that refuses a
    call without a key with status 403 fulfils with the category
    [api_auth_error], not [api_error]. *)
Lemma missing_credential_is_not_api_error :
  keyCheckingSdk [] GeminiService.modelName
    (GeminiService.buildModerationPrompt (ContentModerationRequest.content hello))
    = Throw (ThrownObject (Some (PNum (Fin 403))))
  /\ exists r,
      fst (GeminiService.withKey (H := exampleHost []) keyCheckingSdk [] hello [])
        = Val r
      /\ GeminiResponse.categories r = [VStr (lit "api_auth_error")]
      /\ GeminiResponse.categories r <> [VStr (lit "api_error")].
Proof.
  split; [reflexivity |]. eexists. split; [vm_compute; reflexivity |].
  split; [reflexivity |]. vm_compute. discriminate.
Qed.

End Examples.

(** ** Instances of the conditional theorems *)

Section Witnesses.
Import ContentModerator ContentModerationResponse.

Lemma api_error_override_witness :
  let g := GeminiResponse.mk (VBool true) (Fin 0.9) [VStr (lit "api_error")]
             (VStr (lit "stub")) (VStr (lit "critical")) in
  (exists a, In a apiErrorCategories /\ In (VStr a) (GeminiResponse.categories g))
  /\ isProblematic (applyBusinessRules g hello) = VBool false
  /\ recommendations (applyBusinessRules g hello) = [unavailable].
Proof.
  intros g.
  assert (Hapi : exists a, In a apiErrorCategories
                           /\ In (VStr a) (GeminiResponse.categories g)).
  { exists (lit "api_error"). split; [vm_compute; tauto | now left]. }
  split; [exact Hapi |].
  destruct (api_error_override g hello Hapi) as (Hp & Hr & _).
  split; assumption.
Defined.

Lemma empty_content_short_circuit_witness :
  let request := ContentModerationRequest.mk (lit "   ") None None in
  len (trim (ContentModerationRequest.content request)) = 0%N
  /\ exists v,
      moderateContent (H := exampleHost []) rejectingService request []
        = (Val v, [])
      /\ isProblematic v = VBool true
      /\ In (VStr (lit "empty_content")) (categories v)
      /\ severity v = VStr (lit "low")
      /\ confidence v = Fin 1.0.
Proof.
  intros request. split; [vm_compute; reflexivity |].
  apply (empty_content_short_circuit (H := exampleHost []) rejectingService
           request []).
  vm_compute; reflexivity.
Defined.

Lemma excessive_length_short_circuit_witness :
  let content := repeat 97%N (N.to_nat 10001) in
  let request := ContentModerationRequest.mk content None None in
  (10000 < len (trim (ContentModerationRequest.content request)))%N
  /\ test_repeated_char content = true
  /\ exists v,
      moderateContent (H := exampleHost []) rejectingService request []
        = (Val v, [])
      /\ isProblematic v = VBool true
      /\ categories v = [VStr (lit "excessive_length")]
      /\ severity v = VStr (lit "medium")
      /\ confidence v = Fin 0.8.
Proof.
  intros content request.
  split; [vm_compute; reflexivity |].
  split; [vm_compute; reflexivity |].
  apply (excessive_length_short_circuit (H := exampleHost []) rejectingService
           request []).
  vm_compute; reflexivity.
Defined.

Lemma low_confidence_suppression_witness :
  let g := GeminiResponse.mk (VBool true) (Fin 0.2) [] (VStr (lit "stub"))
             (VStr (lit "medium")) in
  ~ (exists a, In a apiErrorCategories /\ In (VStr a) (GeminiResponse.categories g))
  /\ isProblematic (applyBusinessRules g hello) = VBool true
  /\ confidence (applyBusinessRules g hello) = Fin 0.2.
Proof.
  intros g.
  assert (Hno : ~ (exists a, In a apiErrorCategories
                             /\ In (VStr a) (GeminiResponse.categories g))).
  { intros (a & _ & []). }
  split; [exact Hno |].
  destruct (low_confidence_suppression g hello Hno) as (_ & _ & _ & _ & Hex).
  exact (Hex (VStr (lit "stub")) hello).
Defined.

Lemma short_words_never_flagged_witness :
  let content := lit "a a a a a a a a a a a" in
  ((0 < len (trim content))%N
   /\ (len (trim content) <= 10000)%N
   /\ test_repeated_char content = false
   /\ (10 < len (words (H := exampleHost []) content))%N
   /\ Forall (fun w => (len w <= 2)%N) (words (H := exampleHost []) content))
  /\ repetitionFlagged (H := exampleHost []) content = false
  /\ performBasicValidation (H := exampleHost []) content = validationPassed.
Proof.
  intros content.
  assert (Hpos : (0 < len (trim content))%N) by (vm_compute; reflexivity).
  assert (Hle : (len (trim content) <= 10000)%N) by (vm_compute; discriminate).
  assert (Hrun : test_repeated_char content = false) by (vm_compute; reflexivity).
  assert (Hmany : (10 < len (words (H := exampleHost []) content))%N)
    by (vm_compute; reflexivity).
  assert (Hshort : Forall (fun w => (len w <= 2)%N)
                     (words (H := exampleHost []) content)).
  { vm_compute. repeat constructor; discriminate. }
  split; [repeat split; assumption |].
  destruct (short_words_never_flagged (H := exampleHost []) content
              Hpos Hle Hrun Hmany Hshort) as (_ & _ & Hflag & Hres).
  split; [exact Hflag |]. rewrite Hres. vm_compute. reflexivity.
Defined.

Lemma failures_classified_by_status_witness :
  let sdk : GeminiService.Sdk :=
    fun _ _ _ => Throw (ThrownObject (Some (PStr (lit "503")))) in
  let host : Host := {|
    toLowerCase := List.map asciiLower;
    JSON_parse := fun _ => None;
    StringToNumber := fun s => if jsstring_eqb s (lit "503") then Fin 503 else NaN;
    ArrayToNumber := fun _ => Val NaN
  |} in
  sdk (lit "key") GeminiService.modelName
    (GeminiService.buildModerationPrompt (ContentModerationRequest.content hello))
    = Throw (ThrownObject (Some (PStr (lit "503"))))
  /\ exists text,
      fst (GeminiService.withKey (H := host) sdk (lit "key") hello [])
      = Val (GeminiResponse.mk (VBool false) (Fin 0.5)
               [VStr (lit "api_server_error")] (VStr text) (VStr (lit "low"))).
Proof.
  intros sdk host. split; [reflexivity |].
  destruct (failures_classified_by_status (H := host) sdk (lit "key") hello [])
    as (_ & Hfail).
  destruct (Hfail (ThrownObject (Some (PStr (lit "503")))) eq_refl)
    as (category & text & Hres & _ & _ & _ & Hstr & _).
  exists text. rewrite Hres, (Hstr (lit "503") eq_refl). reflexivity.
Defined.

Lemma adapter_confidence_bounded_witness :
  let model : GeminiService.Model := fun _ => Val confidenceAnswer in
  let g := GeminiResponse.mk (VBool false) (Fin 1) []
             (VStr (lit "No reasoning provided")) (VStr (lit "low")) in
  fst (GeminiService.moderateContent (H := exampleHost exampleTable)
         model hello []) = Val g
  /\ in_unit_interval (GeminiResponse.confidence g)
  /\ in_unit_interval (confidence (applyBusinessRules g hello)).
Proof.
  intros model g.
  assert (Hg : fst (GeminiService.moderateContent (H := exampleHost exampleTable)
                      model hello []) = Val g) by (vm_compute; reflexivity).
  split; [exact Hg |].
  destruct (adapter_confidence_bounded (H := exampleHost exampleTable)
              model hello hello [] g Hg) as (Ha & Hb & _).
  - intros text parsed v [= <-] Hp Hc.
    vm_compute in Hp. injection Hp as <-.
    vm_compute in Hc. injection Hc as <-.
    right. eexists. reflexivity.
  - split; assumption.
Defined.

Lemma unrecognized_severity_passes_through_witness :
  let model : GeminiService.Model := fun _ => Val severityAnswer in
  (truthy (isProblematic
             (performBasicValidation (H := exampleHost exampleTable)
                (ContentModerationRequest.content hello))) = false
   /\ JSON_parse (Host := exampleHost exampleTable)
        (trim (strip_fences severityAnswer))
      = Some (VObj [(lit "severity", VStr (lit "extreme"))]))
  /\ exists v,
      fst (contentModerator (H := exampleHost exampleTable) model hello [])
        = Val v
      /\ severity v = VStr (lit "extreme")
      /\ is_severity_level (severity v) = false.
Proof.
  intros model.
  assert (Hpass : truthy (isProblematic
                    (performBasicValidation (H := exampleHost exampleTable)
                       (ContentModerationRequest.content hello))) = false)
    by (vm_compute; reflexivity).
  assert (Hp : JSON_parse (Host := exampleHost exampleTable)
                 (trim (strip_fences severityAnswer))
               = Some (VObj [(lit "severity", VStr (lit "extreme"))]))
    by (vm_compute; reflexivity).
  split; [split; assumption |].
  destruct (unrecognized_severity_passes_through (H := exampleHost exampleTable)
              model hello [] severityAnswer (lit "extreme") Hpass eq_refl Hp)
    as (v & Hv & Hs).
  - discriminate.
  - exists v. split; [exact Hv |]. split; [exact Hs |].
    rewrite Hs. vm_compute. reflexivity.
Defined.

End Witnesses.

(** ** Further properties of the heuristic validator *)

Section Validation.
Import ContentModerator ContentModerationResponse.
Context `{Host}.

(** *** White space *)

Lemma trimStart_nil (s : jsstring) :
  trimStart s = [] <-> Forall (fun c => isWhiteSpace c = true) s.
Proof.
  induction s as [| c s IH]; simpl.
  - split; [constructor | reflexivity].
  - destruct (isWhiteSpace c) eqn:Ec.
    + rewrite IH. split; [now constructor | now inversion 1].
    + split; [discriminate |]. inversion 1; congruence.
Qed.

Lemma trimStart_head (s : jsstring) :
  match trimStart s with
  | [] => True
  | c :: _ => isWhiteSpace c = false
  end.
Proof.
  induction s as [| c s IH]; simpl; [exact I |].
  destruct (isWhiteSpace c) eqn:Ec; [exact IH | exact Ec].
Qed.

Lemma trim_nil (s : jsstring) :
  trim s = [] <-> Forall (fun c => isWhiteSpace c = true) s.
Proof.
  unfold trim, trimEnd. split.
  - intros E. apply trimStart_nil.
    assert (E' : trimStart (rev (trimStart s)) = []).
    { destruct (trimStart (rev (trimStart s))); [reflexivity |].
      apply (f_equal (@length N)) in E. rewrite length_rev in E. discriminate. }
    apply trimStart_nil in E'.
    pose proof (trimStart_head s) as Hhead.
    destruct (trimStart s) as [| c t]; [reflexivity |].
    exfalso. apply List.Forall_rev in E'. rewrite rev_involutive in E'.
    inversion E'; congruence.
  - intros Hall. apply trimStart_nil in Hall. rewrite Hall. reflexivity.
Qed.

(** X1. [performBasicValidation] answers the empty-content verdict exactly
    for the contents made of white space only (the empty string among
    them). *)
Theorem empty_verdict_iff_white_space (content : jsstring) :
  performBasicValidation content = emptyContent
  <-> Forall (fun c => isWhiteSpace c = true) content.
Proof.
  rewrite <- trim_nil. unfold performBasicValidation.
  destruct (N.eqb_spec (len (trim content)) 0) as [E | E].
  - split; [intros _ | reflexivity].
    destruct (trim content); [reflexivity | discriminate].
  - split.
    + repeat (match goal with |- context [if ?b then _ else _] => destruct b end);
        discriminate.
    + intros E'. rewrite E' in E. contradiction.
Qed.

(** *** Ratios *)

Lemma ratio_gt (c n : N) (q : Q) :
  (0 < n)%N ->
  js_gt (js_div (of_N c) (of_N n)) (Fin q) = true
  <-> (q * inject_Z (Z.of_N n) < inject_Z (Z.of_N c))%Q.
Proof.
  intros Hn. unfold of_N, js_div.
  assert (Hpos : (0 < inject_Z (Z.of_N n))%Q).
  { unfold Qlt. simpl. lia. }
  destruct (Qeq_bool (inject_Z (Z.of_N n)) 0) eqn:E0.
  { apply Qeq_bool_iff in E0. lra. }
  assert (Hdiv : (inject_Z (Z.of_N c) / inject_Z (Z.of_N n) * inject_Z (Z.of_N n)
                  == inject_Z (Z.of_N c))%Q).
  { rewrite Qmult_comm. apply Qmult_div_r. lra. }
  unfold js_gt, js_lt, Qlt_bool. rewrite negb_true_iff.
  rewrite <- not_true_iff_false, Qle_bool_iff.
  split.
  - intros Hnle. apply Qnot_le_lt in Hnle.
    apply (Qmult_lt_compat_r _ _ (inject_Z (Z.of_N n))) in Hnle; [| assumption].
    rewrite Hdiv in Hnle. exact Hnle.
  - intros Hlt. apply Qlt_not_le.
    apply (Qmult_lt_r _ _ (inject_Z (Z.of_N n))); [assumption |].
    rewrite Hdiv. exact Hlt.
Qed.

Lemma ratio_gt_three_tenths (c n : N) :
  (0 < n)%N ->
  js_gt (js_div (of_N c) (of_N n)) (Fin 0.3) = true <-> (3 * n < 10 * c)%N.
Proof.
  intros Hn. rewrite ratio_gt by assumption.
  unfold Qlt, Qmult, inject_Z. simpl. lia.
Qed.

Lemma ratio_gt_one_fifth (c n : N) :
  (0 < n)%N ->
  js_gt (js_div (of_N c) (of_N n)) (Fin 0.2) = true <-> (n < 5 * c)%N.
Proof.
  intros Hn. rewrite ratio_gt by assumption.
  unfold Qlt, Qmult, inject_Z. simpl. lia.
Qed.

(** X2. The special-character check flags exactly the contents longer than
    50 code units of which more than a fifth are special characters. *)
Theorem special_characters_flagged_iff (content : jsstring) :
  specialCharsFlagged content = true
  <-> (50 < len content)%N
      /\ (len content < 5 * len (List.filter isSpecialChar content))%N.
Proof.
  unfold specialCharsFlagged. rewrite andb_true_iff, N.ltb_lt.
  split.
  - intros [Hr Hl]. split; [assumption |].
    apply ratio_gt_one_fifth in Hr; [assumption | lia].
  - intros [Hl Hr]. split; [| assumption].
    apply ratio_gt_one_fifth; [lia | assumption].
Qed.

End Validation.

(** ** The repetition check *)

Section Repetition.
Import ContentModerator ContentModerationResponse.
Context `{Host}.

Lemma occurrences_cons (w x : jsstring) (ws : list jsstring) :
  occurrences w (x :: ws)
  = ((if bool_decide (x = w) then 1 else 0) + occurrences w ws)%N.
Proof.
  unfold occurrences, len. rewrite filter_cons.
  destruct (decide (x = w)) as [E | E].
  - rewrite (bool_decide_eq_true_2 _ E). simpl length. lia.
  - rewrite (bool_decide_eq_false_2 _ E). lia.
Qed.

Lemma ordinaryWord_tests (x : jsstring) :
  ordinaryWord x ->
  jsstring_eqb x (lit "__proto__") = false
  /\ existsb (jsstring_eqb x) inheritedMethods = false.
Proof.
  intros [Hp Hi]. split.
  - apply not_true_iff_false. rewrite jsstring_eqb_true. exact Hp.
  - apply not_true_iff_false. rewrite existsb_exists.
    intros (y & Hy & E). apply jsstring_eqb_true in E. subst y. contradiction.
Qed.

Lemma countWord_counts (m : gmap jsstring frequency) (x : jsstring) :
  countsOnly m -> ordinaryWord x ->
  countsOnly (countWord m x)
  /\ forall w, countOf (countWord m x) w
               = (countOf m w
                  + (if N.ltb 2 (len w) && bool_decide (x = w) then 1 else 0))%N.
Proof.
  intros Hm Hx. destruct (ordinaryWord_tests x Hx) as [Hp Hi].
  unfold countWord.
  destruct (N.ltb_spec 2 (len x)) as [Hlen | Hlen].
  - destruct (m !! x) as [[n |] |] eqn:Ex.
    + split.
      * intros k v. destruct (decide (x = k)) as [<- | Hne].
        -- rewrite lookup_insert_eq. intros [= <-].
           exists (n + 1)%N. split; [reflexivity | split; lia].
        -- rewrite lookup_insert_ne by assumption. apply Hm.
      * intros w. unfold countOf. destruct (decide (x = w)) as [<- | Hne].
        -- rewrite lookup_insert_eq, Ex, bool_decide_eq_true_2 by reflexivity.
           destruct (N.ltb_spec 2 (len x)); [reflexivity | lia].
        -- rewrite lookup_insert_ne, bool_decide_eq_false_2, andb_false_r
             by assumption. lia.
    + destruct (Hm x Text Ex) as (c & Hc & _). discriminate.
    + rewrite Hp, Hi. split.
      * intros k v. destruct (decide (x = k)) as [<- | Hne].
        -- rewrite lookup_insert_eq. intros [= <-].
           exists 1%N. split; [reflexivity | split; lia].
        -- rewrite lookup_insert_ne by assumption. apply Hm.
      * intros w. unfold countOf. destruct (decide (x = w)) as [<- | Hne].
        -- rewrite lookup_insert_eq, Ex, bool_decide_eq_true_2 by reflexivity.
           destruct (N.ltb_spec 2 (len x)); [reflexivity | lia].
        -- rewrite lookup_insert_ne, bool_decide_eq_false_2, andb_false_r
             by assumption. lia.
  - split; [assumption |].
    intros w. destruct (decide (x = w)) as [<- | Hne].
    + destruct (N.ltb_spec 2 (len x)); [lia |]. cbn. lia.
    + rewrite bool_decide_eq_false_2, andb_false_r by assumption. lia.
Qed.

Lemma fold_countWord_counts (ws : list jsstring) :
  Forall ordinaryWord ws ->
  forall m, countsOnly m ->
  countsOnly (fold_left countWord ws m)
  /\ forall w, countOf (fold_left countWord ws m) w
               = (countOf m w
                  + (if N.ltb 2 (len w) then occurrences w ws else 0))%N.
Proof.
  induction 1 as [| x ws Hx _ IH]; intros m Hm; cbn [fold_left].
  - split; [assumption |]. intros w.
    replace (occurrences w []) with 0%N by reflexivity.
    destruct (N.ltb 2 (len w)); lia.
  - destruct (countWord_counts m x Hm Hx) as [Hm' Hstep].
    destruct (IH _ Hm') as [Hfinal Hcount].
    split; [assumption |]. intros w.
    rewrite Hcount, Hstep, occurrences_cons.
    destruct (N.ltb 2 (len w)); destruct (bool_decide (x = w)); cbn; lia.
Qed.

(** After the loop over ordinary words, the object holds under each word
    longer than 2 the number of its occurrences, and nothing else. *)
Lemma wordFrequencyOf_lookup (ws : list jsstring) (w : jsstring) :
  Forall ordinaryWord ws ->
  wordFrequencyOf ws !! w =
  if N.ltb 2 (len w) && N.ltb 0 (occurrences w ws)
  then Some (Count (occurrences w ws)) else None.
Proof.
  intros Hws.
  assert (Hempty : countsOnly ∅).
  { intros k v. rewrite lookup_empty. discriminate. }
  destruct (fold_countWord_counts ws Hws ∅ Hempty) as [Hm Hcount].
  fold (wordFrequencyOf ws) in Hm, Hcount.
  specialize (Hcount w). unfold countOf in Hcount.
  rewrite lookup_empty, N.add_0_l in Hcount.
  destruct (wordFrequencyOf ws !! w) as [v |] eqn:Ew.
  - destruct (Hm w v Ew) as (c & -> & Hc & Hlen).
    apply N.ltb_lt in Hlen. rewrite Hlen in *. subst c.
    apply N.ltb_lt in Hc. now rewrite Hc.
  - destruct (N.ltb 2 (len w)); [| reflexivity].
    rewrite <- Hcount. reflexivity.
Qed.

Lemma Qlt_bool_inject (a b : N) :
  Qlt_bool (inject_Z (Z.of_N a)) (inject_Z (Z.of_N b)) = true <-> (a < b)%N.
Proof.
  unfold Qlt_bool. rewrite negb_true_iff, <- not_true_iff_false, Qle_bool_iff.
  unfold Qle. simpl. lia.
Qed.

Lemma Math_max_of_N (a b : N) :
  Math_max (of_N a) (of_N b) = of_N (N.max a b).
Proof.
  unfold of_N. cbn [Math_max js_lt].
  destruct (Qlt_bool _ _) eqn:E.
  - apply Qlt_bool_inject in E. now rewrite N.max_r by lia.
  - apply not_true_iff_false in E. rewrite Qlt_bool_inject in E.
    now rewrite N.max_l by lia.
Qed.

(** [Math.max] over stored counts: [-Infinity] for none, else the largest. *)
Lemma max_of_counts (l : list (jsstring * frequency)) :
  (forall k v, In (k, v) l -> exists c, v = Count c) ->
  match l with
  | [] => Math_max_list (List.map (fun kv => frequencyNumber (snd kv)) l) = NegInf
  | _ :: _ =>
      exists k c,
        In (k, Count c) l
        /\ Math_max_list (List.map (fun kv => frequencyNumber (snd kv)) l) = of_N c
        /\ forall k' c', In (k', Count c') l -> (c' <= c)%N
  end.
Proof.
  induction l as [| [k v] l IH]; intros Hall; [reflexivity |].
  destruct (Hall k v (or_introl eq_refl)) as (c & ->).
  assert (Hall' : forall k v, In (k, v) l -> exists c, v = Count c).
  { intros k' v' Hin. apply (Hall k' v'). now right. }
  specialize (IH Hall'). cbn [List.map Math_max_list fold_right snd frequencyNumber].
  fold (Math_max_list (List.map (fun kv => frequencyNumber (snd kv)) l)).
  destruct l as [| kv l'].
  - exists k, c. split; [now left |]. split; [reflexivity |].
    intros k' c' [[= _ <-] | []]. lia.
  - destruct IH as (k2 & c2 & Hin & -> & Hmax).
    rewrite Math_max_of_N.
    destruct (N.le_ge_cases c c2) as [Hle | Hge].
    + exists k2, c2. split; [now right |].
      split; [now rewrite N.max_r |].
      intros k' c' [[= _ <-] | Hin']; [assumption | now apply (Hmax k')].
    + exists k, c. split; [now left |].
      split; [now rewrite N.max_l |].
      intros k' c' [[= _ <-] | Hin']; [lia |].
      specialize (Hmax k' c' Hin'). lia.
Qed.

(** X3. For content of more than 10 words, all of them ordinary, the
    repetition check flags exactly when some word longer than 2 code units
    accounts for more than three tenths of the words. *)
Theorem repetition_flagged_iff (content : jsstring) :
  (10 < len (words content))%N ->
  Forall ordinaryWord (words content) ->
  repetitionFlagged content = true
  <-> exists w, (2 < len w)%N
                /\ (3 * len (words content)
                    < 10 * occurrences w (words content))%N.
Proof.
  intros Hmany Hws. unfold repetitionFlagged.
  apply N.ltb_lt in Hmany. rewrite Hmany, andb_true_r. apply N.ltb_lt in Hmany.
  unfold maxFrequencyOf.
  set (ws := words content) in *.
  set (l := map_to_list (wordFrequencyOf ws)).
  assert (Hl : forall k v, In (k, v) l <-> wordFrequencyOf ws !! k = Some v).
  { intros k v. subst l. rewrite <- list_elem_of_In. apply elem_of_map_to_list. }
  assert (Hall : forall k v, In (k, v) l -> exists c, v = Count c).
  { intros k v Hin. apply Hl in Hin. rewrite wordFrequencyOf_lookup in Hin
      by assumption. destruct (_ && _); [| discriminate].
    injection Hin as <-. eauto. }
  pose proof (max_of_counts l Hall) as Hmax.
  destruct l as [| kv l'] eqn:El.
  - rewrite Hmax, js_div_NegInf_length. split; [discriminate |].
    intros (w & Hlen & Hocc). exfalso.
    assert (Hin : In (w, Count (occurrences w ws)) []).
    { apply Hl. rewrite wordFrequencyOf_lookup by assumption.
      apply N.ltb_lt in Hlen. rewrite Hlen.
      replace (N.ltb 0 (occurrences w ws)) with true; [reflexivity |].
      symmetry. apply N.ltb_lt. lia. }
    exact Hin.
  - destruct Hmax as (k & c & Hin & -> & Hle).
    rewrite ratio_gt_three_tenths by lia. split.
    + intros Hc. exists k. apply Hl in Hin.
      rewrite wordFrequencyOf_lookup in Hin by assumption.
      destruct (N.ltb_spec 2 (len k)); [| discriminate].
      destruct (N.ltb 0 (occurrences k ws)); [| discriminate].
      injection Hin as <-. split; assumption.
    + intros (w & Hlen & Hocc).
      assert (Hw : In (w, Count (occurrences w ws)) (kv :: l')).
      { apply Hl. rewrite wordFrequencyOf_lookup by assumption.
        apply N.ltb_lt in Hlen. rewrite Hlen.
        replace (N.ltb 0 (occurrences w ws)) with true; [reflexivity |].
        symmetry. apply N.ltb_lt. lia. }
      specialize (Hle w _ Hw). lia.
Qed.

(** *** Words that name an inherited method *)

Lemma countWord_other (m : gmap jsstring frequency) (x w : jsstring) :
  x <> w -> countWord m x !! w = m !! w.
Proof.
  intros Hne. unfold countWord.
  destruct (N.ltb 2 (len x)); [| reflexivity].
  destruct (m !! x) as [[n |] |]; try reflexivity.
  - now rewrite lookup_insert_ne.
  - destruct (jsstring_eqb x _); [reflexivity |].
    destruct (existsb _ _); now rewrite lookup_insert_ne.
Qed.

Lemma countWord_text_stays (m : gmap jsstring frequency) (x w : jsstring) :
  m !! w = Some Text -> countWord m x !! w = Some Text.
Proof.
  intros Hw. destruct (decide (x = w)) as [-> | Hne].
  - unfold countWord. destruct (N.ltb 2 (len w)); [| assumption].
    now rewrite Hw.
  - now rewrite countWord_other.
Qed.

Lemma fold_countWord_text_stays (ws : list jsstring) (w : jsstring) :
  forall m, m !! w = Some Text -> fold_left countWord ws m !! w = Some Text.
Proof.
  induction ws as [| x ws IH]; intros m Hw; simpl; [assumption |].
  apply IH. now apply countWord_text_stays.
Qed.

Lemma inheritedMethods_long (w : jsstring) :
  In w inheritedMethods ->
  N.ltb 2 (len w) = true
  /\ jsstring_eqb w (lit "__proto__") = false
  /\ existsb (jsstring_eqb w) inheritedMethods = true.
Proof.
  intros Hin. split; [| split].
  - repeat (destruct Hin as [<- | Hin]; [vm_compute; reflexivity |]).
    destruct Hin.
  - repeat (destruct Hin as [<- | Hin]; [vm_compute; reflexivity |]).
    destruct Hin.
  - apply existsb_exists. exists w. split; [assumption |].
    now apply jsstring_eqb_true.
Qed.

Lemma fold_countWord_text (ws : list jsstring) (w : jsstring) :
  In w inheritedMethods -> In w ws ->
  forall m, (m !! w = None \/ m !! w = Some Text) ->
  fold_left countWord ws m !! w = Some Text.
Proof.
  intros Hw. destruct (inheritedMethods_long w Hw) as (Hlen & Hp & Hi).
  induction ws as [| x ws IH]; intros Hin m Hm; [destruct Hin |].
  simpl. destruct (decide (x = w)) as [-> | Hne].
  - apply fold_countWord_text_stays. unfold countWord. rewrite Hlen.
    destruct Hm as [Hm | Hm]; rewrite Hm; [| exact Hm].
    rewrite Hp, Hi. apply lookup_insert_eq.
  - destruct Hin as [E | Hin]; [contradiction |].
    apply IH; [assumption |]. now rewrite countWord_other.
Qed.

Lemma Math_max_list_NaN (l : list jsnum) : In NaN l -> Math_max_list l = NaN.
Proof.
  induction l as [| a l IH]; intros Hin; [destruct Hin |].
  cbn [Math_max_list fold_right]. fold (Math_max_list l).
  destruct Hin as [-> | Hin]; [reflexivity |].
  rewrite (IH Hin). now destruct a.
Qed.

(** X4. When one of the words is the name of a method every object
    inherits ([constructor], once lower-cased, is the one that can occur),
    the value stored for it is a string, [Math.max] yields [NaN] and the
    repetition check does not flag, however often a word is repeated. *)
Theorem inherited_name_disables_repetition_check (content w : jsstring) :
  In w inheritedMethods -> In w (words content) ->
  wordFrequencyOf (words content) !! w = Some Text
  /\ maxFrequencyOf (wordFrequencyOf (words content)) = NaN
  /\ repetitionFlagged content = false.
Proof.
  intros Hw Hin.
  assert (Htext : wordFrequencyOf (words content) !! w = Some Text).
  { unfold wordFrequencyOf. apply fold_countWord_text; try assumption.
    left. apply lookup_empty. }
  assert (Hmax : maxFrequencyOf (wordFrequencyOf (words content)) = NaN).
  { unfold maxFrequencyOf. apply Math_max_list_NaN.
    apply (in_map (fun kv => frequencyNumber (snd kv)) _ (w, Text)).
    apply list_elem_of_In, elem_of_map_to_list. exact Htext. }
  split; [assumption |]. split; [assumption |].
  unfold repetitionFlagged. rewrite Hmax.
  destruct (N.ltb 10 _); reflexivity.
Qed.

End Repetition.

(** ** Further properties of the decision normaliser *)

Section Rules.
Import ContentModerator ContentModerationResponse.

Lemma hasApiError_false (cats : list jsval) :
  ~ (exists a, In a apiErrorCategories /\ In (VStr a) cats) ->
  hasApiError cats = false.
Proof.
  intros Hno. apply not_true_iff_false. now rewrite hasApiError_true.
Qed.

(** The verdict when no category is an API error category, rule by rule. *)
Lemma applyBusinessRules_unfold g request :
  hasApiError (GeminiResponse.categories g) = false ->
  applyBusinessRules g request
  = categoryRule (thresholdRule (platformRule request
      (highRule (criticalRule (copyResponse g))))).
Proof.
  intros Hno. unfold applyBusinessRules. cbn [copyResponse categories].
  now rewrite Hno.
Qed.

Lemma js_lt_irrefl (a : jsnum) : js_lt a a = false.
Proof.
  destruct a as [| |q|]; try reflexivity.
  cbn. unfold Qlt_bool. apply negb_false_iff, Qle_bool_iff, Qle_refl.
Qed.

Lemma js_lt_asym (a b : jsnum) : js_lt a b = true -> js_lt b a = false.
Proof.
  destruct a as [| |x|], b as [| |y|]; cbn; try reflexivity; try discriminate.
  unfold Qlt_bool. rewrite negb_true_iff, negb_false_iff.
  rewrite <- not_true_iff_false, !Qle_bool_iff. intros Hn.
  apply Qlt_le_weak. now apply Qnot_le_lt.
Qed.

Lemma Math_max_not_below (a b : jsnum) : js_lt (Math_max a b) a = false.
Proof.
  destruct a as [| |x|] eqn:Ea, b as [| |y|] eqn:Eb; try reflexivity;
    rewrite <- Ea, <- Eb;
    (assert (Hm : Math_max a b = if js_lt a b then b else a)
       by (subst; reflexivity));
    rewrite Hm;
    (destruct (js_lt a b) eqn:E; [now apply js_lt_asym | apply js_lt_irrefl]).
Qed.

Lemma Math_max_reaches (a : jsnum) (q : Q) :
  a <> NaN -> js_ge (Math_max a (Fin q)) (Fin q) = true.
Proof.
  intros Ha. destruct a as [| |x|]; [contradiction | | | ].
  - cbn. unfold Qlt_bool. rewrite negb_involutive. apply Qle_bool_iff, Qle_refl.
  - cbn [Math_max js_lt]. destruct (Qlt_bool x q) eqn:E.
    + cbn. unfold Qlt_bool. rewrite negb_involutive. apply Qle_bool_iff, Qle_refl.
    + rewrite js_ge_Fin. unfold Qlt_bool in E. now apply negb_false_iff in E.
  - reflexivity.
Qed.

(** The confidence of the verdict when no category is an API error
    category. *)
Lemma applyBusinessRules_confidence g request :
  hasApiError (GeminiResponse.categories g) = false ->
  confidence (applyBusinessRules g request)
  = if is_string (lit "critical") (GeminiResponse.severity g)
    then Math_max (GeminiResponse.confidence g) (Fin 0.9)
    else if is_string (lit "high") (GeminiResponse.severity g)
         then Math_max (GeminiResponse.confidence g) (Fin 0.8)
         else GeminiResponse.confidence g.
Proof.
  intros Hno. rewrite applyBusinessRules_unfold by assumption.
  destruct (categoryRule_frame (thresholdRule (platformRule request
             (highRule (criticalRule (copyResponse g))))))
    as (_ & _ & -> & _).
  destruct (thresholdRule_frame (platformRule request
             (highRule (criticalRule (copyResponse g)))))
    as (_ & _ & -> & _).
  destruct (platformRule_frame request (highRule (criticalRule (copyResponse g))))
    as (_ & _ & -> & _).
  unfold highRule.
  destruct (criticalRule_frame (copyResponse g)) as (_ & _ & ->).
  unfold criticalRule. cbn [copyResponse severity].
  destruct (is_string (lit "critical") (GeminiResponse.severity g)) eqn:Ec.
  - apply is_string_true in Ec. rewrite Ec.
    replace (is_string (lit "high") (VStr (lit "critical"))) with false
      by (vm_compute; reflexivity).
    reflexivity.
  - destruct (is_string (lit "high") (GeminiResponse.severity g)); reflexivity.
Qed.

(** X5. The verdict never has a lower confidence than the classification:
    the rules copy the confidence or raise it. *)
Theorem confidence_never_lowered (g : GeminiResponse.t)
    (request : ContentModerationRequest.t) :
  js_lt (confidence (applyBusinessRules g request))
        (GeminiResponse.confidence g) = false.
Proof.
  destruct (hasApiError (GeminiResponse.categories g)) eqn:Eapi.
  - unfold applyBusinessRules. cbn [copyResponse categories]. rewrite Eapi.
    apply js_lt_irrefl.
  - rewrite applyBusinessRules_confidence by assumption.
    destruct (is_string (lit "critical") _);
      [apply Math_max_not_below |].
    destruct (is_string (lit "high") _);
      [apply Math_max_not_below | apply js_lt_irrefl].
Qed.

(** The condition of the platform rule. *)
Lemma platformRule_condition g :
  categories (highRule (criticalRule (copyResponse g)))
  = GeminiResponse.categories g.
Proof.
  destruct (highRule_frame (criticalRule (copyResponse g))) as (-> & _).
  destruct (criticalRule_frame (copyResponse g)) as (-> & _). reflexivity.
Qed.

Lemma beforeThreshold_severity g request :
  severity (beforeThreshold g request)
  = if bool_decide (ContentModerationRequest.platform request = Some (lit "youtube"))
       && includes (GeminiResponse.categories g) (lit "explicit_content")
    then VStr (lit "high") else GeminiResponse.severity g.
Proof.
  unfold beforeThreshold, platformRule. rewrite (platformRule_condition g).
  destruct (_ && _); [reflexivity |].
  destruct (highRule_frame (criticalRule (copyResponse g))) as (_ & _ & ->).
  destruct (criticalRule_frame (copyResponse g)) as (_ & _ & ->). reflexivity.
Qed.

Lemma beforeThreshold_recommendations g request :
  recommendations (beforeThreshold g request)
  = (if is_string (lit "critical") (GeminiResponse.severity g)
     then [removalRequired] else [])
    ++ (if is_string (lit "high") (GeminiResponse.severity g)
        then [humanReview] else [])
    ++ (if bool_decide (ContentModerationRequest.platform request
                        = Some (lit "youtube"))
           && includes (GeminiResponse.categories g) (lit "explicit_content")
        then [ageRestrict] else []).
Proof.
  unfold beforeThreshold, platformRule. rewrite (platformRule_condition g).
  assert (Hh : recommendations (highRule (criticalRule (copyResponse g)))
               = (if is_string (lit "critical") (GeminiResponse.severity g)
                  then [removalRequired] else [])
                 ++ (if is_string (lit "high") (GeminiResponse.severity g)
                     then [humanReview] else [])).
  { unfold highRule.
    destruct (criticalRule_frame (copyResponse g)) as (_ & _ & ->).
    unfold criticalRule. cbn [copyResponse severity].
    destruct (is_string (lit "critical") _), (is_string (lit "high") _);
      reflexivity. }
  destruct (_ && _); cbn [recommendations push_recommendations set_severity];
    rewrite Hh; [now rewrite <- app_assoc | now rewrite app_nil_r].
Qed.

(** The verdict in terms of [finalResponse] at the threshold adjustment. *)
Lemma applyBusinessRules_isProblematic g request :
  hasApiError (GeminiResponse.categories g) = false ->
  isProblematic (applyBusinessRules g request)
  = if belowThreshold (beforeThreshold g request) then VBool false
    else isProblematic (beforeThreshold g request).
Proof.
  intros Hno. rewrite applyBusinessRules_unfold by assumption.
  fold (beforeThreshold g request). unfold categoryRule, thresholdRule.
  destruct (belowThreshold _); reflexivity.
Qed.

Lemma applyBusinessRules_recommendations g request :
  hasApiError (GeminiResponse.categories g) = false ->
  recommendations (applyBusinessRules g request)
  = recommendations (beforeThreshold g request)
    ++ getRecommendationsForCategories (GeminiResponse.categories g).
Proof.
  intros Hno. rewrite applyBusinessRules_unfold by assumption.
  fold (beforeThreshold g request).
  unfold categoryRule. cbn [recommendations push_recommendations].
  destruct (thresholdRule_frame (beforeThreshold g request))
    as (-> & _ & _ & _ & ->).
  unfold beforeThreshold, platformRule. rewrite (platformRule_condition g).
  destruct (_ && _); cbn [categories set_severity push_recommendations];
    now rewrite (platformRule_condition g).
Qed.

(** Every category recommendation is one of five fixed sentences. *)
Lemma getRecommendations_vocabulary (cats : list jsval) (x : jsstring) :
  In x (getRecommendationsForCategories cats) -> In x categoryAdvice.
Proof.
  unfold getRecommendationsForCategories, categoryAdvice.
  destruct (includes cats (lit "hate_speech")),
    (includes cats (lit "harassment")), (includes cats (lit "violence")),
    (includes cats (lit "misinformation")), (includes cats (lit "spam"));
    cbn [app In]; tauto.
Qed.

(** X6. Without an API error category, a classification of severity
    [critical] gives a problematic verdict with the removal recommendation
    first and no human-review recommendation, whatever the classifier said
    and however low its confidence; a confidence that is a number is raised
    to at least 0.9. *)
Theorem critical_severity_floor (g : GeminiResponse.t)
    (request : ContentModerationRequest.t) :
  ~ (exists a, In a apiErrorCategories /\ In (VStr a) (GeminiResponse.categories g)) ->
  GeminiResponse.severity g = VStr (lit "critical") ->
  let v := applyBusinessRules g request in
  isProblematic v = VBool true
  /\ (exists rest, recommendations v = removalRequired :: rest)
  /\ ~ In humanReview (recommendations v)
  /\ (GeminiResponse.confidence g <> NaN ->
      js_ge (confidence v) (Fin 0.9) = true).
Proof.
  intros Hno Hsev v. subst v. apply hasApiError_false in Hno.
  assert (Hc : is_string (lit "critical") (GeminiResponse.severity g) = true)
    by now apply is_string_true.
  assert (Hh : is_string (lit "high") (GeminiResponse.severity g) = false)
    by (rewrite Hsev; vm_compute; reflexivity).
  split; [| split; [| split]].
  - rewrite applyBusinessRules_isProblematic by assumption.
    rewrite beforeThreshold_isProblematic, Hc. cbn [orb].
    unfold belowThreshold. rewrite beforeThreshold_severity, Hsev.
    destruct (bool_decide _ && includes _ _);
      (replace (is_string _ _) with false by (vm_compute; reflexivity));
      now rewrite andb_false_r.
  - rewrite applyBusinessRules_recommendations by assumption.
    rewrite beforeThreshold_recommendations, Hc. eexists. reflexivity.
  - rewrite applyBusinessRules_recommendations by assumption.
    rewrite beforeThreshold_recommendations, Hc, Hh.
    intros Hin. cbn [app] in Hin. destruct Hin as [E | Hin];
      [vm_compute in E; discriminate |].
    apply in_app_or in Hin as [Hin | Hin].
    + destruct (bool_decide _ && includes _ _); [| destruct Hin].
      destruct Hin as [E | []]. vm_compute in E. discriminate.
    + apply getRecommendations_vocabulary in Hin. vm_compute in Hin.
      repeat (destruct Hin as [E | Hin]; [discriminate |]). exact Hin.
  - intros Hnan. rewrite applyBusinessRules_confidence, Hc by assumption.
    now apply Math_max_reaches.
Qed.

(** X7. Without an API error category, a classification of severity
    [high] gives a problematic verdict with the human-review recommendation
    first; a confidence that is a number is raised to at least 0.8. *)
Theorem high_severity_floor (g : GeminiResponse.t)
    (request : ContentModerationRequest.t) :
  ~ (exists a, In a apiErrorCategories /\ In (VStr a) (GeminiResponse.categories g)) ->
  GeminiResponse.severity g = VStr (lit "high") ->
  let v := applyBusinessRules g request in
  isProblematic v = VBool true
  /\ severity v = VStr (lit "high")
  /\ (exists rest, recommendations v = humanReview :: rest)
  /\ (GeminiResponse.confidence g <> NaN ->
      js_ge (confidence v) (Fin 0.8) = true).
Proof.
  intros Hno Hsev v. subst v. apply hasApiError_false in Hno.
  assert (Hc : is_string (lit "critical") (GeminiResponse.severity g) = false)
    by (rewrite Hsev; vm_compute; reflexivity).
  assert (Hh : is_string (lit "high") (GeminiResponse.severity g) = true)
    by now apply is_string_true.
  split; [| split; [| split]].
  - rewrite applyBusinessRules_isProblematic by assumption.
    rewrite beforeThreshold_isProblematic, Hc, Hh. cbn [orb].
    unfold belowThreshold. rewrite beforeThreshold_severity, Hsev.
    destruct (bool_decide _ && includes _ _);
      (replace (is_string _ _) with false by (vm_compute; reflexivity));
      now rewrite andb_false_r.
  - rewrite applyBusinessRules_severity, Hsev. now destruct (_ && _).
  - rewrite applyBusinessRules_recommendations by assumption.
    rewrite beforeThreshold_recommendations, Hc, Hh. eexists. reflexivity.
  - intros Hnan. rewrite applyBusinessRules_confidence, Hc, Hh by assumption.
    now apply Math_max_reaches.
Qed.

(** X8. The platform rule comes after the severity floors.  For a request
    of platform [youtube] and a classification with the category
    [explicit_content] whose severity is neither [critical] nor [high], the
    verdict has severity [high] and the age-restriction recommendation, yet
    [isProblematic] and the confidence are the classifier's and there is no
    human-review recommendation: neither the high floor nor the
    low-confidence suppression applies to it. *)
Theorem platform_override_after_floors (g : GeminiResponse.t)
    (request : ContentModerationRequest.t) :
  ~ (exists a, In a apiErrorCategories /\ In (VStr a) (GeminiResponse.categories g)) ->
  ContentModerationRequest.platform request = Some (lit "youtube") ->
  In (VStr (lit "explicit_content")) (GeminiResponse.categories g) ->
  GeminiResponse.severity g <> VStr (lit "critical") ->
  GeminiResponse.severity g <> VStr (lit "high") ->
  let v := applyBusinessRules g request in
  severity v = VStr (lit "high")
  /\ isProblematic v = GeminiResponse.isProblematic g
  /\ confidence v = GeminiResponse.confidence g
  /\ (exists rest, recommendations v = ageRestrict :: rest)
  /\ ~ In humanReview (recommendations v).
Proof.
  intros Hno Hp Hcat Hnc Hnh v. subst v. apply hasApiError_false in Hno.
  assert (Hc : is_string (lit "critical") (GeminiResponse.severity g) = false)
    by (apply not_true_iff_false; now rewrite is_string_true).
  assert (Hh : is_string (lit "high") (GeminiResponse.severity g) = false)
    by (apply not_true_iff_false; now rewrite is_string_true).
  assert (Hcond : bool_decide (ContentModerationRequest.platform request
                               = Some (lit "youtube"))
                  && includes (GeminiResponse.categories g)
                       (lit "explicit_content") = true).
  { apply andb_true_iff. split; [now apply bool_decide_eq_true_2 |].
    now apply includes_true. }
  split; [| split; [| split; [| split]]].
  - rewrite applyBusinessRules_severity, Hno, Hcond. reflexivity.
  - rewrite applyBusinessRules_isProblematic by assumption.
    rewrite beforeThreshold_isProblematic, Hc, Hh. cbn [orb].
    unfold belowThreshold. rewrite beforeThreshold_severity, Hcond.
    replace (is_string _ _) with false by (vm_compute; reflexivity).
    now rewrite andb_false_r.
  - rewrite applyBusinessRules_confidence, Hc, Hh by assumption. reflexivity.
  - rewrite applyBusinessRules_recommendations by assumption.
    rewrite beforeThreshold_recommendations, Hc, Hh, Hcond.
    eexists. reflexivity.
  - rewrite applyBusinessRules_recommendations by assumption.
    rewrite beforeThreshold_recommendations, Hc, Hh, Hcond.
    cbn [app]. intros [E | Hin]; [vm_compute in E; discriminate |].
    apply getRecommendations_vocabulary in Hin. vm_compute in Hin.
    repeat (destruct Hin as [E | Hin]; [discriminate |]). exact Hin.
Qed.

Ltac distinct_by_computation :=
  match goal with
  | |- NoDup ?l => apply (bool_decide_unpack (NoDup l)); vm_compute; exact I
  end.

(** X9. The recommendations of a verdict never repeat a sentence and
    there are at most seven of them. *)
Theorem recommendations_distinct (g : GeminiResponse.t)
    (request : ContentModerationRequest.t) :
  NoDup (recommendations (applyBusinessRules g request))
  /\ length (recommendations (applyBusinessRules g request)) <= 7.
Proof.
  destruct (hasApiError (GeminiResponse.categories g)) eqn:Eapi.
  - unfold applyBusinessRules. cbn [copyResponse categories]. rewrite Eapi.
    split; [distinct_by_computation | cbn; lia].
  - rewrite applyBusinessRules_recommendations by assumption.
    rewrite beforeThreshold_recommendations.
    unfold getRecommendationsForCategories.
    destruct (is_string (lit "critical") (GeminiResponse.severity g)) eqn:Ec.
    + apply is_string_true in Ec. rewrite Ec.
      replace (is_string (lit "high") (VStr (lit "critical"))) with false
        by (vm_compute; reflexivity).
      destruct (bool_decide _ && includes _ _),
        (includes _ (lit "hate_speech")), (includes _ (lit "harassment")),
        (includes _ (lit "violence")), (includes _ (lit "misinformation")),
        (includes _ (lit "spam"));
        (split; [distinct_by_computation
                | cbn [app length]; lia]).
    + destruct (is_string (lit "high") (GeminiResponse.severity g)),
        (bool_decide _ && includes _ _),
        (includes _ (lit "hate_speech")), (includes _ (lit "harassment")),
        (includes _ (lit "violence")), (includes _ (lit "misinformation")),
        (includes _ (lit "spam"));
        (split; [distinct_by_computation
                | cbn [app length]; lia]).
Qed.

(** X10. The category recommendations depend on which categories are
    present, not on their order or multiplicity, and entries that are not
    one of the five keyed categories add nothing. *)
Theorem recommendations_by_membership (cats cats' : list jsval) :
  (forall c, In c [lit "hate_speech"; lit "harassment"; lit "violence";
                   lit "misinformation"; lit "spam"] ->
             In (VStr c) cats <-> In (VStr c) cats') ->
  getRecommendationsForCategories cats = getRecommendationsForCategories cats'.
Proof.
  intros Hsame.
  assert (Hinc : forall c, In c [lit "hate_speech"; lit "harassment";
                                 lit "violence"; lit "misinformation";
                                 lit "spam"] ->
                           includes cats c = includes cats' c).
  { intros c Hc. apply eq_true_iff_eq. rewrite !includes_true. now apply Hsame. }
  unfold getRecommendationsForCategories.
  rewrite !Hinc by (cbn; tauto). reflexivity.
Qed.

End Rules.

(** ** Further properties of the classifier adapter *)

Section Parsing.
Import GeminiService.
Context `{Host}.

(** *** Answers that are not objects *)

Lemma responseOfParsed_not_object (parsed : jsval) :
  (forall fields, parsed <> VObj fields) ->
  match parsed with
  | VUndef | VNull => responseOfParsed parsed = Throw TypeError
  | _ => responseOfParsed parsed = Val allDefaults
  end.
Proof.
  intros Hno. destruct parsed; try reflexivity.
  exfalso. now apply (Hno fields).
Qed.

(** X11. When the answer of the model is not JSON, or is JSON but not an
    object, the classification is not problematic, has confidence 0, no
    category and severity [low], and the verdict made of it is not
    problematic and carries no recommendation: the content passes. *)
Theorem unusable_answer_passes (text : jsstring)
    (request : ContentModerationRequest.t) :
  (forall fields, JSON_parse (trim (strip_fences text)) <> Some (VObj fields)) ->
  let g := parseGeminiResponse text in
  let v := ContentModerator.applyBusinessRules g request in
  (g = parseFailure \/ g = allDefaults)
  /\ ContentModerationResponse.isProblematic v = VBool false
  /\ ContentModerationResponse.confidence v = Fin 0
  /\ ContentModerationResponse.categories v = []
  /\ ContentModerationResponse.severity v = VStr (lit "low")
  /\ ContentModerationResponse.recommendations v = [].
Proof.
  intros Hno g v.
  assert (Hg : g = parseFailure \/ g = allDefaults).
  { subst g. pose proof (parseGeminiResponse_cases text) as Hcases.
    destruct (JSON_parse (trim (strip_fences text))) as [parsed |];
      [| now left].
    assert (Hp : forall fields, parsed <> VObj fields)
      by (intros fields ->; now apply (Hno fields)).
    pose proof (responseOfParsed_not_object parsed Hp) as Hr.
    destruct parsed; rewrite Hr in Hcases; auto. }
  split; [exact Hg |]. subst v.
  destruct Hg as [-> | ->]; unfold ContentModerator.applyBusinessRules,
    ContentModerator.beforeThreshold, ContentModerator.platformRule;
    cbn; rewrite andb_false_r; repeat split.
Qed.

(** *** Fences *)

Lemma strip_fences_no_backquote (s t : jsstring) :
  ~ In backquote s ->
  strip_fences_from 0 (s ++ t) = s ++ strip_fences_from 0 t.
Proof.
  induction s as [| c s IH]; intros Hno; [reflexivity |].
  assert (Hc : N.eqb 96 c = false).
  { apply N.eqb_neq. intros <-. apply Hno. now left. }
  cbn [app strip_fences_from].
  replace (starts_with (lit "```json") (c :: s ++ t)) with false
    by (change (lit "```json") with [96; 96; 96; 106; 115; 111; 110]%N;
        cbn [starts_with]; now rewrite Hc).
  replace (starts_with (lit "```") (c :: s ++ t)) with false
    by (change (lit "```") with [96; 96; 96]%N;
        cbn [starts_with]; now rewrite Hc).
  rewrite IH; [reflexivity |]. intros Hin. apply Hno. now right.
Qed.

Lemma trimStart_app_white (pre s : jsstring) :
  Forall (fun c => isWhiteSpace c = true) pre ->
  trimStart (pre ++ s) = trimStart s.
Proof.
  induction 1 as [| c pre Hc _ IH]; [reflexivity |].
  cbn [app trimStart]. now rewrite Hc.
Qed.

Lemma trimStart_app_black (s t : jsstring) :
  trimStart s <> [] -> trimStart (s ++ t) = trimStart s ++ t.
Proof.
  induction s as [| c s IH]; intros Hne; [contradiction |].
  cbn [app trimStart] in *. destruct (isWhiteSpace c); [now apply IH | reflexivity].
Qed.

Lemma trimEnd_app_white (s post : jsstring) :
  Forall (fun c => isWhiteSpace c = true) post ->
  trimEnd (s ++ post) = trimEnd s.
Proof.
  intros Hpost. unfold trimEnd. rewrite rev_app_distr.
  rewrite trimStart_app_white; [reflexivity | now apply List.Forall_rev].
Qed.

Lemma trimEnd_app_black (s t : jsstring) :
  trimEnd t <> [] -> trimEnd (s ++ t) = s ++ trimEnd t.
Proof.
  unfold trimEnd. intros Hne. rewrite rev_app_distr.
  rewrite trimStart_app_black.
  - now rewrite rev_app_distr, rev_involutive.
  - intros E. apply Hne. now rewrite E.
Qed.

(** White space around a string does not change what [trim] returns. *)
Lemma trim_padding (pre s post : jsstring) :
  Forall (fun c => isWhiteSpace c = true) pre ->
  Forall (fun c => isWhiteSpace c = true) post ->
  trim (pre ++ s ++ post) = trim s.
Proof.
  intros Hpre Hpost. unfold trim. rewrite trimStart_app_white by assumption.
  destruct (trimStart s) as [| c t] eqn:Es.
  - apply trimStart_nil in Es.
    replace (trimStart (s ++ post)) with (@nil N); [reflexivity |].
    symmetry. apply trimStart_nil. now apply Forall_app.
  - rewrite trimStart_app_black by (rewrite Es; discriminate).
    rewrite Es. now apply trimEnd_app_white.
Qed.

Lemma strip_fences_opening (l : jsstring) :
  strip_fences_from 0 (lit "```json" ++ l) = strip_fences_from 0 l.
Proof. reflexivity. Qed.

(** X12. An answer wrapped in a [```json] fence, with any white space
    inside the fence, is classified as the bare answer is, provided the
    answer holds no back quote. *)
Theorem fenced_answer_parses_alike (body pre post : jsstring) :
  ~ In backquote body ->
  Forall (fun c => isWhiteSpace c = true) pre ->
  Forall (fun c => isWhiteSpace c = true) post ->
  parseGeminiResponse (lit "```json" ++ pre ++ body ++ post ++ lit "```")
  = parseGeminiResponse body.
Proof.
  intros Hbody Hpre Hpost.
  assert (Hwhite : forall l, Forall (fun c => isWhiteSpace c = true) l ->
                             ~ In backquote l).
  { intros l Hl Hin. rewrite List.Forall_forall in Hl.
    specialize (Hl _ Hin). vm_compute in Hl. discriminate. }
  assert (Hclean : trim (strip_fences
                          (lit "```json" ++ pre ++ body ++ post ++ lit "```"))
                   = trim (strip_fences body)).
  { unfold strip_fences. rewrite strip_fences_opening.
    replace (pre ++ body ++ post ++ lit "```")
      with ((pre ++ body ++ post) ++ lit "```")
      by now rewrite <- !app_assoc.
    set (inner := pre ++ body ++ post).
    assert (Hinner : ~ In backquote inner).
    { subst inner. rewrite !in_app_iff. intros [Hin | [Hin | Hin]];
        [now apply (Hwhite pre) | contradiction | now apply (Hwhite post)]. }
    rewrite strip_fences_no_backquote by assumption.
    replace (strip_fences_from 0 (lit "```")) with (@nil N)
      by (vm_compute; reflexivity).
    rewrite app_nil_r. subst inner. rewrite trim_padding by assumption.
    rewrite <- (app_nil_r body) at 2.
    rewrite strip_fences_no_backquote by assumption.
    cbn [strip_fences_from]. now rewrite app_nil_r. }
  unfold parseGeminiResponse. now rewrite Hclean.
Qed.

End Parsing.

(** ** Properties of the pipeline as a whole *)

Section Pipeline.
Import GeminiService.
Context `{Host}.

Lemma trim_around (P X S : jsstring) :
  trimStart P <> [] -> trimEnd S <> [] ->
  trim (P ++ X ++ S) = trimStart P ++ X ++ trimEnd S.
Proof.
  intros HP HS. unfold trim.
  rewrite trimStart_app_black by assumption.
  rewrite (app_assoc (trimStart P) X (trimEnd S)), (app_assoc (trimStart P) X S).
  now apply trimEnd_app_black.
Qed.

(** X13. The prompt is a fixed head, the content between double quotes
    exactly as it was submitted, and a fixed tail: nothing in the content is
    escaped or removed, whatever it holds. *)
Theorem prompt_embeds_content_verbatim :
  exists tail, forall content,
    buildModerationPrompt content = promptHead ++ quoted content ++ tail.
Proof.
  eexists. intros content. unfold buildModerationPrompt, quoted.
  match goal with
  | |- trim (unlines (?a :: ?b :: ?c :: (?d ++ _) :: ?rest)) = _ =>
      set (P := a ++ [10%N] ++ b ++ [10%N] ++ c ++ [10%N] ++ d ++ [34%N]);
      set (S := [34%N] ++ [10%N] ++ unlines rest);
      replace (unlines (a :: b :: c :: (d ++ [34%N] ++ content ++ [34%N]) :: rest))
        with (P ++ content ++ S)
        by (subst P S; cbn [unlines]; now rewrite <- !app_assoc)
  end.
  rewrite trim_around; [| vm_compute; discriminate | vm_compute; discriminate].
  replace (trimStart P) with (promptHead ++ [34%N]) by (vm_compute; reflexivity).
  let t := eval vm_compute in (trimEnd S) in
  replace (trimEnd S) with t by (vm_compute; reflexivity).
  clear P S. rewrite <- !app_assoc. cbn [app]. reflexivity.
Qed.

(** The orchestrator over the real service fulfils on every path. *)
Lemma contentModerator_fulfils (model : Model)
    (request : ContentModerationRequest.t) (log : list jsstring) :
  exists v, fst (contentModerator model request log) = Val v.
Proof.
  unfold contentModerator, ContentModerator.moderateContent.
  destruct (truthy _); [eexists; reflexivity |].
  destruct (moderateContent_fulfils model request log) as (g & Hg).
  unfold moderateContent in *. cbn [fst] in Hg. rewrite Hg.
  eexists. reflexivity.
Qed.

(** X14. [moderateContent] of the orchestrator over the real service
    always fulfils, keeps the prompts already logged and sends at most one
    more: none when the heuristics decide, exactly the prompt of the content
    otherwise (no retry, also when the call fails). *)
Theorem one_call_per_request (model : Model)
    (request : ContentModerationRequest.t) (log : list jsstring) :
  (exists v, fst (contentModerator model request log) = Val v)
  /\ snd (contentModerator model request log)
     = if truthy (ContentModerationResponse.isProblematic
                    (ContentModerator.performBasicValidation
                       (ContentModerationRequest.content request)))
       then log
       else log ++ [buildModerationPrompt
                      (ContentModerationRequest.content request)].
Proof.
  split; [apply contentModerator_fulfils |].
  unfold contentModerator, ContentModerator.moderateContent.
  destruct (truthy _); [reflexivity |].
  unfold moderateContent.
  destruct (try_catch _ _); reflexivity.
Qed.

(** X15. When the heuristics pass and the call of the model throws, the
    verdict is not problematic, has confidence 0.5, severity [low], a single
    API error category and the unavailability notice as its only
    recommendation. *)
Theorem failed_call_verdict (model : Model)
    (request : ContentModerationRequest.t) (log : list jsstring)
    (error : thrown) :
  truthy (ContentModerationResponse.isProblematic
            (ContentModerator.performBasicValidation
               (ContentModerationRequest.content request))) = false ->
  model (buildModerationPrompt (ContentModerationRequest.content request))
    = Throw error ->
  exists v category,
    fst (contentModerator model request log) = Val v
    /\ In category ContentModerator.apiErrorCategories
    /\ ContentModerationResponse.categories v = [VStr category]
    /\ ContentModerationResponse.isProblematic v = VBool false
    /\ ContentModerationResponse.confidence v = Fin 0.5
    /\ ContentModerationResponse.severity v = VStr (lit "low")
    /\ ContentModerationResponse.recommendations v
       = [ContentModerator.unavailable].
Proof.
  intros Hpass Hm.
  unfold contentModerator, ContentModerator.moderateContent. rewrite Hpass.
  unfold moderateContent. rewrite Hm. cbn [try_catch mbind exn_bind bind].
  destruct (handleError_fallback error) as (category & text & Hin & ->).
  cbn [mbind exn_bind bind fst]. eexists _, category.
  split; [reflexivity |]. split; [assumption |].
  unfold ContentModerator.applyBusinessRules.
  cbn [ContentModerator.copyResponse ContentModerationResponse.categories
       GeminiResponse.categories].
  replace (ContentModerator.hasApiError [VStr category]) with true.
  - repeat split.
  - symmetry. apply hasApiError_true. exists category. split; [assumption | now left].
Qed.

(** X16. The clamp of [parseGeminiResponse] lets [NaN] through.  When the
    answer is an object whose [confidence] is a non-empty string that does
    not read as a number, the classification has confidence [NaN], and so
    has every verdict made of it. *)
Theorem string_confidence_is_not_clamped (text s : jsstring)
    (fields : list (jsstring * jsval)) (request : ContentModerationRequest.t) :
  JSON_parse (trim (strip_fences text)) = Some (VObj fields) ->
  own_property fields (lit "confidence") = Some (VStr s) ->
  s <> [] ->
  StringToNumber s = NaN ->
  GeminiResponse.confidence (parseGeminiResponse text) = NaN
  /\ ContentModerationResponse.confidence
       (ContentModerator.applyBusinessRules (parseGeminiResponse text) request)
     = NaN.
Proof.
  intros Hp Hc Hs Hnan.
  assert (Hconf : GeminiResponse.confidence (parseGeminiResponse text) = NaN).
  { pose proof (parseGeminiResponse_cases text) as Hcases. rewrite Hp in Hcases.
    unfold responseOfParsed in Hcases. cbn [get_property] in Hcases.
    rewrite Hc in Hcases.
    destruct (own_property fields (lit "isProblematic"));
      destruct (own_property fields (lit "categories"));
      destruct (own_property fields (lit "reasoning"));
      destruct (own_property fields (lit "severity"));
      cbn [mbind exn_bind bind] in Hcases;
      unfold js_or in Hcases; cbn [truthy] in Hcases;
      (replace (jsstring_eqb s []) with false in Hcases
         by (symmetry; apply not_true_iff_false; now rewrite jsstring_eqb_true));
      cbn [negb ToNumber mbind exn_bind bind] in Hcases;
      rewrite Hnan in Hcases; rewrite Hcases; reflexivity. }
  split; [exact Hconf |].
  destruct (ContentModerator.hasApiError
              (GeminiResponse.categories (parseGeminiResponse text))) eqn:Eapi.
  - unfold ContentModerator.applyBusinessRules.
    cbn [ContentModerator.copyResponse ContentModerationResponse.categories].
    rewrite Eapi. exact Hconf.
  - rewrite applyBusinessRules_confidence, Hconf by assumption.
    destruct (is_string _ _); [reflexivity |].
    destruct (is_string _ _); reflexivity.
Qed.

End Pipeline.

(** ** Properties of the moderation controller *)

Section Controller.
Import ModerationController.
Context `{Host}.

(** X17. A body whose [content] is a non-empty string is answered with
    status 200 and the verdict of the orchestrator for that content: over
    the real service the single endpoint never answers 500 to it. *)
Theorem string_content_is_answered (model : GeminiService.Model)
    (now : jsstring) (fields : list (jsstring * jsval)) (content : jsstring)
    (log : list jsstring) :
  own_property fields (lit "content") = Some (VStr content) ->
  content <> [] ->
  exists request v,
    ContentModerationRequest.content request = content
    /\ contentModerator model request log
       = (Val v, snd (contentModerator model request log))
    /\ moderateContent (contentModerator model) now (VObj fields) log
       = (Success v now, snd (contentModerator model request log)).
Proof.
  intros Hc Hne. unfold moderateContent, moderateUntyped.
  cbn [get_property]. rewrite Hc. cbn [truthy].
  replace (jsstring_eqb content []) with false
    by (symmetry; apply not_true_iff_false; now rewrite jsstring_eqb_true).
  cbn [negb].
  match goal with
  | |- context [contentModerator model ?r log] => set (request := r)
  end.
  destruct (contentModerator_fulfils model request log) as (v & Hv).
  exists request, v. split; [reflexivity |].
  destruct (contentModerator model request log) as [result log'] eqn:E.
  cbn [fst snd] in *. subst result. split; reflexivity.
Qed.

(** X18. A body whose [content] is truthy but not a string (a number, an
    array, an object, [true]) is answered with status 500, and nothing is
    moderated: neither the heuristics nor the model see it. *)
Theorem non_string_content_fails (moderate : Moderator) (now : jsstring)
    (fields : list (jsstring * jsval)) (content : jsval) (log : list jsstring) :
  own_property fields (lit "content") = Some content ->
  truthy content = true ->
  (forall s, content <> VStr s) ->
  moderateContent moderate now (VObj fields) log
  = (Failure 500 (lit "Internal server error")
       (lit "Failed to moderate content") (Some now), log).
Proof.
  intros Hc Ht Hs. unfold moderateContent, moderateUntyped.
  cbn [get_property]. rewrite Hc, Ht. cbn [negb].
  destruct content; try reflexivity; try discriminate.
  exfalso. now apply (Hs s).
Qed.

(** *** Batches *)

Lemma moderateEach_length (moderate : Moderator) (requests : list jsval) :
  forall (index : N) (log : list jsstring),
    length (fst (moderateEach moderate index requests log)) = length requests.
Proof.
  induction requests as [| request rest IH]; intros index log; [reflexivity |].
  cbn [moderateEach].
  destruct (moderateUntyped moderate request log) as [result log'].
  specialize (IH (index + 1)%N log').
  destruct (moderateEach moderate (index + 1) rest log') as [entries log''].
  cbn [fst length] in *. now rewrite IH.
Qed.

(** The entry at a position is made of what the moderator answers for the
    item at that position, in whatever state the earlier items left. *)
Lemma moderateEach_lookup (moderate : Moderator) (requests : list jsval) :
  forall (index : N) (log : list jsstring) (i : nat) (request : jsval),
    requests !! i = Some request ->
    exists log_i,
      fst (moderateEach moderate index requests log) !! i
      = Some (entryOf (index + N.of_nat i)
                (fst (moderateUntyped moderate request log_i))).
Proof.
  induction requests as [| first rest IH]; intros index log i request Hi;
    [discriminate |].
  cbn [moderateEach].
  destruct (moderateUntyped moderate first log) as [result log'] eqn:E.
  specialize (IH (index + 1)%N log').
  destruct (moderateEach moderate (index + 1) rest log') as [entries log''].
  cbn [fst] in *. destruct i as [| i].
  - injection Hi as <-. exists log. rewrite E, N.add_0_r.
    destruct result; reflexivity.
  - destruct (IH i request Hi) as (log_i & Hentry). exists log_i.
    change ((?e :: entries) !! S i) with (entries !! i).
    rewrite Hentry. do 2 f_equal. lia.
Qed.

Lemma entryOf_index (index : N) (result : exn ContentModerationResponse.t) :
  entryIndex (entryOf index result) = index.
Proof. destruct result; reflexivity. Qed.

(** X19. A batch of one to ten items is answered with status 200 and one
    entry per item, in the order of the array and with the position as
    index.  Whatever the other items are and whatever the classifier
    service does, an item whose content is not a string gets a failure
    entry, and an item whose content the heuristics flag gets a success
    entry holding the heuristic verdict. *)
Theorem batch_entries_in_order (geminiService : ContentModerator.Service)
    (now : jsstring) (fields : list (jsstring * jsval)) (requests : list jsval)
    (log : list jsstring) :
  own_property fields (lit "contents") = Some (VArr requests) ->
  (1 <= len requests)%N -> (len requests <= 10)%N ->
  exists results log',
    moderateBatch (ContentModerator.moderateContent geminiService) now
      (VObj fields) log
    = (Success results now, log')
    /\ length results = length requests
    /\ forall i request,
         requests !! i = Some request ->
         exists entry,
           results !! i = Some entry
           /\ entryIndex entry = N.of_nat i
           /\ ((forall content,
                   get_property request (lit "content") <> Val (VStr content)) ->
               entry = ItemFailure (N.of_nat i) (lit "Failed to moderate content"))
           /\ (forall content,
                  get_property request (lit "content") = Val (VStr content) ->
                  truthy (ContentModerationResponse.isProblematic
                            (ContentModerator.performBasicValidation content))
                  = true ->
                  entry = ItemSuccess (N.of_nat i)
                            (ContentModerator.performBasicValidation content)).
Proof.
  intros Hc Hlo Hhi. unfold moderateBatch. cbn [get_property]. rewrite Hc.
  destruct (N.eqb_spec (len requests) 0) as [E | _]; [lia |].
  destruct (N.ltb_spec 10 (len requests)) as [E | _]; [lia |].
  set (moderate := ContentModerator.moderateContent geminiService).
  pose proof (moderateEach_length moderate requests 0%N log) as Hlen.
  pose proof (moderateEach_lookup moderate requests 0%N log) as Hlookup.
  destruct (moderateEach moderate 0 requests log) as [results log'].
  cbn [fst] in Hlen, Hlookup.
  exists results, log'. split; [reflexivity |]. split; [exact Hlen |].
  intros i request Hi. destruct (Hlookup i request Hi) as (log_i & Hentry).
  rewrite N.add_0_l in Hentry. eexists. split; [exact Hentry |].
  split; [apply entryOf_index |]. split.
  - intros Hnot. unfold moderateUntyped.
    destruct (get_property request (lit "content")) as [[] |] eqn:Eg;
      try reflexivity.
    exfalso. now apply (Hnot s).
  - intros content Hg Hflag. unfold moderateUntyped. rewrite Hg.
    subst moderate. unfold ContentModerator.moderateContent.
    cbn [ContentModerationRequest.content]. rewrite Hflag. reflexivity.
Qed.

(** X20. A batch is moderated only if [contents] is an array of one to ten
    items.  Anything else is answered with status 400, and nothing is
    moderated: the log of prompts is as it was. *)
Theorem batch_size_is_checked (moderate : Moderator) (now : jsstring)
    (fields : list (jsstring * jsval)) (log : list jsstring) :
  (forall requests,
      own_property fields (lit "contents") = Some (VArr requests) ->
      (len requests < 1)%N \/ (10 < len requests)%N) ->
  exists error message,
    moderateBatch moderate now (VObj fields) log
    = (Failure 400 error message None, log).
Proof.
  intros Hbad. unfold moderateBatch. cbn [get_property].
  destruct (own_property fields (lit "contents")) as [[| | | | | requests |] |];
    try (eexists _, _; reflexivity).
  destruct (N.eqb_spec (len requests) 0) as [E | E];
    [eexists _, _; reflexivity |].
  destruct (N.ltb_spec 10 (len requests)) as [E' | E'];
    [eexists _, _; reflexivity |].
  destruct (Hbad requests eq_refl); lia.
Qed.

(** X21. The empty string is treated differently by the two endpoints.
    Alone it is answered with status 400 and never validated; as an item of
    a batch it is validated and gets the empty-content verdict in a success
    entry.  In neither case is the classifier service called. *)
Theorem empty_string_alone_and_in_a_batch (geminiService : ContentModerator.Service)
    (now : jsstring) (fields : list (jsstring * jsval)) (log : list jsstring) :
  own_property fields (lit "content") = Some (VStr []) ->
  moderateContent (ContentModerator.moderateContent geminiService) now
    (VObj fields) log
  = (Failure 400 (lit "Content is required")
       (lit "Please provide content to moderate") None, log)
  /\ moderateBatch (ContentModerator.moderateContent geminiService) now
       (VObj [(lit "contents", VArr [VObj fields])]) log
     = (Success [ItemSuccess 0 ContentModerator.emptyContent] now, log).
Proof.
  intros Hc. split.
  - unfold moderateContent. cbn [get_property]. rewrite Hc. reflexivity.
  - unfold moderateBatch.
    replace (get_property (VObj [(lit "contents", VArr [VObj fields])])
               (lit "contents"))
      with (Val (VArr [VObj fields])) by (vm_compute; reflexivity).
    cbn [len length N.of_nat N.eqb N.ltb N.compare Pos.compare Pos.compare_cont].
    cbn [moderateEach]. unfold moderateUntyped. cbn [get_property]. rewrite Hc.
    unfold ContentModerator.moderateContent, ContentModerator.performBasicValidation.
    cbn. reflexivity.
Qed.

End Controller.

(** ** The category registry *)

Section Registry.
Import ContentModerator.

(** X22. The registry lists nine categories under distinct names, each
    with one of the four severities, and among them the five categories
    that have a recommendation.  The categories that the heuristics and the
    failure fallbacks put into verdicts are, [spam] apart, not listed. *)
Theorem registry_and_verdict_categories :
  length getCategories = 9
  /\ NoDup (List.map ModerationCategory.name getCategories)
  /\ Forall (fun c => In (ModerationCategory.severity c) severity_levels)
       getCategories
  /\ Forall (fun c => In c (List.map ModerationCategory.name getCategories))
       [lit "hate_speech"; lit "harassment"; lit "violence";
        lit "misinformation"; lit "spam"]
  /\ Forall (fun c => ~ In c (List.map ModerationCategory.name getCategories))
       (apiErrorCategories ++ [lit "empty_content"; lit "excessive_length"]).
Proof.
  split; [reflexivity |].
  split; [apply (bool_decide_unpack (NoDup _)); vm_compute; exact I |].
  split; [| split].
  - repeat (apply List.Forall_cons; [vm_compute; tauto |]). apply List.Forall_nil.
  - repeat (apply List.Forall_cons; [vm_compute; tauto |]). apply List.Forall_nil.
  - repeat (apply List.Forall_cons;
            [vm_compute; intros Hin;
             repeat (destruct Hin as [E | Hin]; [discriminate |]); exact Hin |]).
    apply List.Forall_nil.
Qed.

End Registry.

(** ** Instances of the further theorems *)

Section FurtherWitnesses.
Import ContentModerator ContentModerationResponse.

Ltac not_listed :=
  let Hin := fresh "Hin" in
  let E := fresh "E" in
  intros Hin; vm_compute in Hin;
  repeat (destruct Hin as [E | Hin]; [discriminate |]); exact Hin.

Lemma repeated_characters_flagged_witness :
  let content := lit "x" ++ repeat 32%N 10 in
  ((0 < len (trim content))%N
   /\ (len (trim content) <= 10000)%N
   /\ isLineTerminator 32 = false
   /\ content = lit "x" ++ repeat 32%N 10 ++ [])
  /\ len (trim content) = 1%N
  /\ performBasicValidation (H := exampleHost []) content = repeatedCharacters.
Proof.
  intros content.
  assert (Hpos : (0 < len (trim content))%N) by (vm_compute; reflexivity).
  assert (Hle : (len (trim content) <= 10000)%N) by (vm_compute; discriminate).
  assert (Hc : isLineTerminator 32 = false) by reflexivity.
  assert (E : content = lit "x" ++ repeat 32%N 10 ++ []) by reflexivity.
  split; [repeat split; assumption |]. split; [vm_compute; reflexivity |].
  exact (repeated_characters_flagged (H := exampleHost []) content (lit "x") []
           32%N Hpos Hle Hc E).
Defined.

Lemma repetition_flagged_iff_witness :
  let content := lit "foo foo foo foo a a a a a a a a" in
  ((10 < len (words (H := exampleHost []) content))%N
   /\ Forall ordinaryWord (words (H := exampleHost []) content))
  /\ repetitionFlagged (H := exampleHost []) content = true.
Proof.
  intros content.
  assert (Hmany : (10 < len (words (H := exampleHost []) content))%N)
    by (vm_compute; reflexivity).
  assert (Hws : Forall ordinaryWord (words (H := exampleHost []) content)).
  { vm_compute words.
    repeat (apply List.Forall_cons;
            [split; [vm_compute; discriminate | not_listed] |]).
    apply List.Forall_nil. }
  split; [split; assumption |].
  apply (proj2 (repetition_flagged_iff (H := exampleHost []) content Hmany Hws)).
  exists (lit "foo"). split; vm_compute; reflexivity.
Defined.

Lemma inherited_name_disables_repetition_check_witness :
  let content :=
    lit "constructor constructor constructor constructor constructor a a a a a a" in
  (In (lit "constructor") inheritedMethods
   /\ In (lit "constructor") (words (H := exampleHost []) content))
  /\ (3 * len (words (H := exampleHost []) content)
      < 10 * occurrences (lit "constructor") (words (H := exampleHost []) content))%N
  /\ repetitionFlagged (H := exampleHost []) content = false.
Proof.
  intros content.
  assert (Hw : In (lit "constructor") inheritedMethods) by (now left).
  assert (Hin : In (lit "constructor") (words (H := exampleHost []) content))
    by (vm_compute; now left).
  split; [split; assumption |]. split; [vm_compute; reflexivity |].
  exact (proj2 (proj2 (inherited_name_disables_repetition_check
                         (H := exampleHost []) content (lit "constructor")
                         Hw Hin))).
Defined.

Lemma critical_severity_floor_witness :
  let g := GeminiResponse.mk (VBool false) (Fin 0.3) [VStr (lit "violence")]
             (VStr (lit "threat")) (VStr (lit "critical")) in
  (~ (exists a, In a apiErrorCategories
                /\ In (VStr a) (GeminiResponse.categories g))
   /\ GeminiResponse.severity g = VStr (lit "critical"))
  /\ isProblematic (applyBusinessRules g hello) = VBool true
  /\ js_ge (confidence (applyBusinessRules g hello)) (Fin 0.9) = true.
Proof.
  intros g.
  assert (Hno : ~ (exists a, In a apiErrorCategories
                             /\ In (VStr a) (GeminiResponse.categories g))).
  { intros (a & Ha & [E | []]). injection E as <-. revert Ha. not_listed. }
  split; [split; [exact Hno | reflexivity] |].
  destruct (critical_severity_floor g hello Hno eq_refl) as (Hp & _ & _ & Hc).
  split; [exact Hp |]. apply Hc. discriminate.
Defined.

Lemma high_severity_floor_witness :
  let g := GeminiResponse.mk (VBool false) (Fin 0.3) [VStr (lit "harassment")]
             (VStr (lit "insult")) (VStr (lit "high")) in
  (~ (exists a, In a apiErrorCategories
                /\ In (VStr a) (GeminiResponse.categories g))
   /\ GeminiResponse.severity g = VStr (lit "high"))
  /\ isProblematic (applyBusinessRules g hello) = VBool true
  /\ js_ge (confidence (applyBusinessRules g hello)) (Fin 0.8) = true.
Proof.
  intros g.
  assert (Hno : ~ (exists a, In a apiErrorCategories
                             /\ In (VStr a) (GeminiResponse.categories g))).
  { intros (a & Ha & [E | []]). injection E as <-. revert Ha. not_listed. }
  split; [split; [exact Hno | reflexivity] |].
  destruct (high_severity_floor g hello Hno eq_refl) as (Hp & _ & _ & Hc).
  split; [exact Hp |]. apply Hc. discriminate.
Defined.

Lemma platform_override_after_floors_witness :
  let g := GeminiResponse.mk (VBool false) (Fin 0.3)
             [VStr (lit "explicit_content")] (VStr (lit "adult"))
             (VStr (lit "low")) in
  let request :=
    ContentModerationRequest.mk (lit "Hello there") None (Some (lit "youtube")) in
  (~ (exists a, In a apiErrorCategories
                /\ In (VStr a) (GeminiResponse.categories g))
   /\ ContentModerationRequest.platform request = Some (lit "youtube")
   /\ In (VStr (lit "explicit_content")) (GeminiResponse.categories g)
   /\ GeminiResponse.severity g <> VStr (lit "critical")
   /\ GeminiResponse.severity g <> VStr (lit "high"))
  /\ severity (applyBusinessRules g request) = VStr (lit "high")
  /\ isProblematic (applyBusinessRules g request) = VBool false
  /\ confidence (applyBusinessRules g request) = Fin 0.3.
Proof.
  intros g request.
  assert (Hno : ~ (exists a, In a apiErrorCategories
                             /\ In (VStr a) (GeminiResponse.categories g))).
  { intros (a & Ha & [E | []]). injection E as <-. revert Ha. not_listed. }
  assert (Hcat : In (VStr (lit "explicit_content")) (GeminiResponse.categories g))
    by (now left).
  assert (Hnc : GeminiResponse.severity g <> VStr (lit "critical"))
    by (vm_compute; discriminate).
  assert (Hnh : GeminiResponse.severity g <> VStr (lit "high"))
    by (vm_compute; discriminate).
  split; [repeat split; assumption |].
  destruct (platform_override_after_floors g request Hno eq_refl Hcat Hnc Hnh)
    as (Hs & Hp & Hc & _).
  repeat split; assumption.
Defined.

Lemma recommendations_by_membership_witness :
  let cats := [VStr (lit "spam"); VStr (lit "violence")] in
  let cats' := [VStr (lit "violence"); VStr (lit "spam"); VStr (lit "spam")] in
  (forall c, In c [lit "hate_speech"; lit "harassment"; lit "violence";
                   lit "misinformation"; lit "spam"] ->
             In (VStr c) cats <-> In (VStr c) cats')
  /\ getRecommendationsForCategories cats
     = getRecommendationsForCategories cats'.
Proof.
  intros cats cats'.
  assert (Hsame : forall c, In c [lit "hate_speech"; lit "harassment";
                                  lit "violence"; lit "misinformation";
                                  lit "spam"] ->
                            In (VStr c) cats <-> In (VStr c) cats').
  { intros c _. subst cats cats'. cbn [In]. tauto. }
  split; [exact Hsame |].
  exact (recommendations_by_membership cats cats' Hsame).
Defined.

Lemma recognised_severity_stays_recognised_witness :
  let g := GeminiResponse.mk (VBool true) (Fin 0.7) [VStr (lit "spam")]
             (VStr (lit "advert")) (VStr (lit "medium")) in
  is_severity_level (GeminiResponse.severity g) = true
  /\ is_severity_level (severity (applyBusinessRules g hello)) = true.
Proof.
  intros g.
  assert (Hg : is_severity_level (GeminiResponse.severity g) = true)
    by (vm_compute; reflexivity).
  split; [exact Hg |].
  exact (recognised_severity_stays_recognised g hello Hg).
Defined.

Lemma missing_severity_defaults_to_low_witness :
  (GeminiService.responseOfParsed (H := exampleHost []) (VObj []) = Val allDefaults
   /\ get_property (VObj []) (lit "severity") = Val VUndef
   /\ truthy VUndef = false)
  /\ GeminiResponse.severity allDefaults = VStr (lit "low").
Proof.
  assert (Hr : GeminiService.responseOfParsed (H := exampleHost []) (VObj [])
               = Val allDefaults) by (vm_compute; reflexivity).
  split; [repeat split; assumption |].
  exact (missing_severity_defaults_to_low (H := exampleHost []) (VObj []) VUndef
           allDefaults Hr eq_refl eq_refl).
Defined.

Lemma unusable_answer_passes_witness :
  let text := lit "I cannot help with that." in
  (forall fields,
      JSON_parse (Host := exampleHost []) (trim (strip_fences text))
      <> Some (VObj fields))
  /\ isProblematic
       (applyBusinessRules
          (GeminiService.parseGeminiResponse (H := exampleHost []) text) hello)
     = VBool false
  /\ recommendations
       (applyBusinessRules
          (GeminiService.parseGeminiResponse (H := exampleHost []) text) hello)
     = [].
Proof.
  intros text.
  assert (Hno : forall fields,
             JSON_parse (Host := exampleHost []) (trim (strip_fences text))
             <> Some (VObj fields)) by (intros fields; vm_compute; discriminate).
  split; [exact Hno |].
  destruct (unusable_answer_passes (H := exampleHost []) text hello Hno)
    as (_ & Hp & _ & _ & _ & Hr).
  split; assumption.
Defined.

Lemma fenced_answer_parses_alike_witness :
  (~ In backquote severityObject
   /\ Forall (fun c => isWhiteSpace c = true) [10%N])
  /\ GeminiService.parseGeminiResponse (H := exampleHost exampleTable)
       severityAnswer
     = GeminiService.parseGeminiResponse (H := exampleHost exampleTable)
         severityObject.
Proof.
  assert (Hbody : ~ In backquote severityObject) by not_listed.
  assert (Hws : Forall (fun c => isWhiteSpace c = true) [10%N])
    by (repeat constructor).
  split; [split; assumption |].
  exact (fenced_answer_parses_alike (H := exampleHost exampleTable)
           severityObject [10%N] [10%N] Hbody Hws Hws).
Defined.

Lemma failed_call_verdict_witness :
  let model : GeminiService.Model :=
    fun _ => Throw (ThrownObject (Some (PNum (Fin 503)))) in
  (truthy (isProblematic
             (performBasicValidation (H := exampleHost [])
                (ContentModerationRequest.content hello))) = false
   /\ model (GeminiService.buildModerationPrompt
               (ContentModerationRequest.content hello))
      = Throw (ThrownObject (Some (PNum (Fin 503)))))
  /\ exists v,
      fst (contentModerator (H := exampleHost []) model hello []) = Val v
      /\ isProblematic v = VBool false
      /\ recommendations v = [unavailable].
Proof.
  intros model.
  assert (Hpass : truthy (isProblematic
                    (performBasicValidation (H := exampleHost [])
                       (ContentModerationRequest.content hello))) = false)
    by (vm_compute; reflexivity).
  split; [split; [exact Hpass | reflexivity] |].
  destruct (failed_call_verdict (H := exampleHost []) model hello []
              (ThrownObject (Some (PNum (Fin 503)))) Hpass eq_refl)
    as (v & category & Hv & _ & _ & Hp & _ & _ & Hr).
  exists v. repeat split; assumption.
Defined.

Lemma string_confidence_is_not_clamped_witness :
  let fields := [(lit "confidence", VStr (lit "high"))] in
  let host := exampleHost [(lit "{}", VObj fields)] in
  (JSON_parse (Host := host) (trim (strip_fences (lit "{}"))) = Some (VObj fields)
   /\ own_property fields (lit "confidence") = Some (VStr (lit "high"))
   /\ lit "high" <> []
   /\ StringToNumber (Host := host) (lit "high") = NaN)
  /\ confidence (applyBusinessRules
                   (GeminiService.parseGeminiResponse (H := host) (lit "{}"))
                   hello) = NaN.
Proof.
  intros fields host.
  assert (Hp : JSON_parse (Host := host) (trim (strip_fences (lit "{}")))
               = Some (VObj fields)) by (vm_compute; reflexivity).
  assert (Hc : own_property fields (lit "confidence") = Some (VStr (lit "high")))
    by (vm_compute; reflexivity).
  assert (Hs : lit "high" <> []) by (vm_compute; discriminate).
  assert (Hn : StringToNumber (Host := host) (lit "high") = NaN) by reflexivity.
  split; [repeat split; assumption |].
  exact (proj2 (string_confidence_is_not_clamped (H := host) (lit "{}")
                  (lit "high") fields hello Hp Hc Hs Hn)).
Defined.

Lemma pipeline_confidence_bounded_witness :
  let model : GeminiService.Model := fun _ => Val confidenceAnswer in
  exists v,
    fst (contentModerator (H := exampleHost exampleTable) model hello []) = Val v
    /\ in_unit_interval (confidence v).
Proof.
  intros model.
  apply (pipeline_confidence_bounded (H := exampleHost exampleTable) model hello []).
  intros text parsed v [= <-] Hp Hc.
  vm_compute in Hp. injection Hp as <-.
  vm_compute in Hc. injection Hc as <-.
  right. eexists. reflexivity.
Defined.

End FurtherWitnesses.

Section ControllerWitnesses.
Import ModerationController.

Lemma string_content_is_answered_witness :
  let model : GeminiService.Model := fun _ => Val confidenceAnswer in
  let fields := [(lit "content", VStr (lit "Hello there"))] in
  (own_property fields (lit "content") = Some (VStr (lit "Hello there"))
   /\ lit "Hello there" <> [])
  /\ exists v log',
      moderateContent (contentModerator (H := exampleHost exampleTable) model)
        (lit "2024-01-01T00:00:00.000Z") (VObj fields) []
      = (Success v (lit "2024-01-01T00:00:00.000Z"), log').
Proof.
  intros model fields.
  assert (Hc : own_property fields (lit "content")
               = Some (VStr (lit "Hello there"))) by (vm_compute; reflexivity).
  assert (Hne : lit "Hello there" <> []) by (vm_compute; discriminate).
  split; [split; assumption |].
  destruct (string_content_is_answered (H := exampleHost exampleTable) model
              (lit "2024-01-01T00:00:00.000Z") fields (lit "Hello there") []
              Hc Hne) as (request & v & _ & _ & Hreply).
  exists v. eexists. exact Hreply.
Defined.

Lemma non_string_content_fails_witness :
  let fields := [(lit "content", VNum (Fin 5))] in
  (own_property fields (lit "content") = Some (VNum (Fin 5))
   /\ truthy (VNum (Fin 5)) = true
   /\ forall s, VNum (Fin 5) <> VStr s)
  /\ moderateContent (ContentModerator.moderateContent (H := exampleHost [])
                        rejectingService)
       (lit "2024-01-01T00:00:00.000Z") (VObj fields) []
     = (Failure 500 (lit "Internal server error")
          (lit "Failed to moderate content")
          (Some (lit "2024-01-01T00:00:00.000Z")), []).
Proof.
  intros fields.
  assert (Hc : own_property fields (lit "content") = Some (VNum (Fin 5)))
    by (vm_compute; reflexivity).
  assert (Ht : truthy (VNum (Fin 5)) = true) by reflexivity.
  assert (Hs : forall s, VNum (Fin 5) <> VStr s) by discriminate.
  split; [repeat split; assumption |].
  exact (non_string_content_fails
           (ContentModerator.moderateContent (H := exampleHost []) rejectingService)
           (lit "2024-01-01T00:00:00.000Z") fields (VNum (Fin 5)) [] Hc Ht Hs).
Defined.

Lemma batch_entries_in_order_witness :
  let requests :=
    [VObj [(lit "content", VStr (lit "Hello there"))];
     VNull;
     VObj [(lit "content", VStr [])]] in
  let fields := [(lit "contents", VArr requests)] in
  (own_property fields (lit "contents") = Some (VArr requests)
   /\ (1 <= len requests)%N /\ (len requests <= 10)%N)
  /\ exists results log',
      moderateBatch
        (ContentModerator.moderateContent (H := exampleHost []) rejectingService)
        (lit "2024-01-01T00:00:00.000Z") (VObj fields) []
      = (Success results (lit "2024-01-01T00:00:00.000Z"), log')
      /\ length results = 3
      /\ results !! 1%nat
         = Some (ItemFailure 1 (lit "Failed to moderate content"))
      /\ results !! 2%nat
         = Some (ItemSuccess 2 ContentModerator.emptyContent).
Proof.
  intros requests fields.
  assert (Hc : own_property fields (lit "contents") = Some (VArr requests))
    by (vm_compute; reflexivity).
  assert (Hlo : (1 <= len requests)%N) by (vm_compute; discriminate).
  assert (Hhi : (len requests <= 10)%N) by (vm_compute; discriminate).
  split; [repeat split; assumption |].
  destruct (batch_entries_in_order (H := exampleHost []) rejectingService
              (lit "2024-01-01T00:00:00.000Z") fields requests [] Hc Hlo Hhi)
    as (results & log' & Hreply & Hlen & Hentries).
  exists results, log'. split; [exact Hreply |]. split; [exact Hlen |]. split.
  - destruct (Hentries 1%nat VNull eq_refl) as (entry & -> & _ & Hfail & _).
    f_equal. apply Hfail. intros content. discriminate.
  - destruct (Hentries 2%nat (VObj [(lit "content", VStr [])]) eq_refl)
      as (entry & -> & _ & _ & Hflag).
    f_equal. apply (Hflag []); vm_compute; reflexivity.
Defined.

Lemma batch_size_is_checked_witness :
  let fields := [(lit "contents", VArr (repeat VNull 11))] in
  (forall requests,
      own_property fields (lit "contents") = Some (VArr requests) ->
      (len requests < 1)%N \/ (10 < len requests)%N)
  /\ exists error message,
      moderateBatch (ContentModerator.moderateContent (H := exampleHost [])
                       rejectingService)
        (lit "2024-01-01T00:00:00.000Z") (VObj fields) []
      = (Failure 400 error message None, []).
Proof.
  intros fields.
  assert (Hbad : forall requests,
             own_property fields (lit "contents") = Some (VArr requests) ->
             (len requests < 1)%N \/ (10 < len requests)%N).
  { intros requests E. vm_compute in E. injection E as <-.
    right. vm_compute. reflexivity. }
  split; [exact Hbad |].
  exact (batch_size_is_checked
           (ContentModerator.moderateContent (H := exampleHost []) rejectingService)
           (lit "2024-01-01T00:00:00.000Z") fields [] Hbad).
Defined.

Lemma empty_string_alone_and_in_a_batch_witness :
  let fields := [(lit "content", VStr []); (lit "userId", VStr (lit "u1"))] in
  own_property fields (lit "content") = Some (VStr [])
  /\ moderateBatch (ContentModerator.moderateContent (H := exampleHost [])
                      rejectingService)
       (lit "2024-01-01T00:00:00.000Z")
       (VObj [(lit "contents", VArr [VObj fields])]) []
     = (Success [ItemSuccess 0 ContentModerator.emptyContent]
          (lit "2024-01-01T00:00:00.000Z"), []).
Proof.
  intros fields.
  assert (Hc : own_property fields (lit "content") = Some (VStr []))
    by (vm_compute; reflexivity).
  split; [exact Hc |].
  exact (proj2 (empty_string_alone_and_in_a_batch (H := exampleHost [])
                  rejectingService (lit "2024-01-01T00:00:00.000Z") fields []
                  Hc)).
Defined.

End ControllerWitnesses.
